(** * TestRail API client

    A shallow embedding of [src/testrail_mcp/testrail_client.py] and the
    properties of its request construction and error surfacing.

    The client is a thin layer over Python's standard library and the
    [requests] package.  The first part of the file models the built-ins the
    client calls ([str] methods, [dict], [str()]/[repr()], [json.dumps],
    [urllib.parse.urlencode], [base64]); the second part is the client itself;
    the third part states and proves its properties.

    Conventions.  A Python [str] is the Rocq [string] of the bytes of its
    UTF-8 encoding (for ASCII text, the characters themselves); the functions
    that work on code points decode it.  A Python [int] is a [Z].  A [dict]
    is an association list in insertion order.  Floating-point values are
    not modelled. *)

From Stdlib Require Import String Ascii List ZArith NArith Lia Bool DecimalString.
Import ListNotations.

Local Open Scope list_scope.
Local Open Scope string_scope.
#[local] Set Warnings "-register-all".

(* ================================================================= *)
(** ** Python built-ins used by the client *)

Module Py.

(** *** Strings *)

(** [s.endswith(suffix)] *)
Definition endswith (s suffix : string) : bool :=
  let n := String.length s in
  let m := String.length suffix in
  (m <=? n)%nat && (substring (n - m) m s =? suffix).

(** [sub in s] *)
Fixpoint str_in (sub s : string) : bool :=
  prefix sub s ||
  match s with
  | EmptyString => false
  | String _ r => str_in sub r
  end.

(** [sep.join(parts)] *)
Fixpoint join (sep : string) (parts : list string) : string :=
  match parts with
  | [] => ""
  | [p] => p
  | p :: rest => p ++ sep ++ join sep rest
  end.

Fixpoint str_forallb (p : ascii -> bool) (s : string) : bool :=
  match s with
  | EmptyString => true
  | String c r => p c && str_forallb p r
  end.

(** Concatenation of the images of the characters of [s]. *)
Fixpoint str_flat_map (f : ascii -> string) (s : string) : string :=
  match s with
  | EmptyString => ""
  | String c r => f c ++ str_flat_map f r
  end.

(** [c.isspace()] for an ASCII character: TAB, LF, VT, FF, CR, FS, GS, RS,
    US and space.  The client strips Base64 text only, which is ASCII. *)
Definition isspace (c : ascii) : bool :=
  let n := nat_of_ascii c in
  ((9 <=? n) && (n <=? 13) || (28 <=? n) && (n <=? 32))%nat.

Fixpoint lstrip (s : string) : string :=
  match s with
  | EmptyString => EmptyString
  | String c r => if isspace c then lstrip r else s
  end.

Fixpoint rstrip (s : string) : string :=
  match s with
  | EmptyString => EmptyString
  | String c r =>
      match rstrip r with
      | EmptyString => if isspace c then EmptyString else String c EmptyString
      | r' => String c r'
      end
  end.

(** [s.strip()] *)
Definition strip (s : string) : string := rstrip (lstrip s).

(** [str(n)] for an [int]. *)
Definition str_int (n : Z) : string := NilZero.string_of_int (Z.to_int n).

Definition hex_digit (uppercase : bool) (d : nat) : ascii :=
  if (d <? 10)%nat then ascii_of_nat (48 + d)
  else ascii_of_nat ((if uppercase then 55 else 87) + d).

(** Two hexadecimal digits of a byte: [%02X] or [%02x]. *)
Definition hex2 (uppercase : bool) (n : nat) : string :=
  String (hex_digit uppercase (n / 16)) (String (hex_digit uppercase (n mod 16)) "").

Definition dquote : ascii := ascii_of_nat 34.
Definition squote : ascii := ascii_of_nat 39.
Definition backslash : ascii := ascii_of_nat 92.

(** *** Unicode text

    A [str] is a sequence of code points; the string that models it holds
    the bytes of its UTF-8 encoding.  The functions of Python that work on
    code points ([upper], [repr], [json.dumps]) decode first.  A byte that
    is not part of well-formed UTF-8 belongs to no [str]; it is kept as it
    is. *)

Inductive item : Type :=
| Char (cp : N)
| Byte (b : ascii).

(** A continuation byte, [10xxxxxx]. *)
Definition is_cont (b : ascii) : bool :=
  ((128 <=? N_of_ascii b) && (N_of_ascii b <=? 191))%N.

Definition cont (b : ascii) : N := (N_of_ascii b - 128)%N.

(** A code point of at least [lo] that is no surrogate and within range. *)
Definition scalar_from (lo n : N) : bool :=
  ((lo <=? n) && (n <=? 1114111) && negb ((55296 <=? n) && (n <=? 57343)))%N.

Fixpoint utf8_decode (s : string) : list item :=
  match s with
  | EmptyString => []
  | String b1 r1 =>
      let n1 := N_of_ascii b1 in
      if (n1 <? 128)%N then Char n1 :: utf8_decode r1
      else
        match r1 with
        | String b2 r2 =>
            let c2 := ((n1 - 192) * 64 + cont b2)%N in
            if ((192 <=? n1) && (n1 <? 224))%N && is_cont b2 && scalar_from 128 c2
            then Char c2 :: utf8_decode r2
            else
              match r2 with
              | String b3 r3 =>
                  let c3 := (((n1 - 224) * 64 + cont b2) * 64 + cont b3)%N in
                  if ((224 <=? n1) && (n1 <? 240))%N && is_cont b2 && is_cont b3
                     && scalar_from 2048 c3
                  then Char c3 :: utf8_decode r3
                  else
                    match r3 with
                    | String b4 r4 =>
                        let c4 :=
                          ((((n1 - 240) * 64 + cont b2) * 64 + cont b3) * 64 + cont b4)%N in
                        if ((240 <=? n1) && (n1 <? 248))%N && is_cont b2 && is_cont b3
                           && is_cont b4 && scalar_from 65536 c4
                        then Char c4 :: utf8_decode r4
                        else Byte b1 :: utf8_decode r1
                    | EmptyString => Byte b1 :: utf8_decode r1
                    end
              | EmptyString => Byte b1 :: utf8_decode r1
              end
        | EmptyString => [Byte b1]
        end
  end.

Definition utf8_encode_cp (n : N) : string :=
  if (n <? 128)%N then String (ascii_of_N n) ""
  else if (n <? 2048)%N then
    String (ascii_of_N (192 + n / 64)) (String (ascii_of_N (128 + n mod 64)) "")
  else if (n <? 65536)%N then
    String (ascii_of_N (224 + n / 4096))
      (String (ascii_of_N (128 + (n / 64) mod 64))
         (String (ascii_of_N (128 + n mod 64)) ""))
  else
    String (ascii_of_N (240 + n / 262144))
      (String (ascii_of_N (128 + (n / 4096) mod 64))
         (String (ascii_of_N (128 + (n / 64) mod 64))
            (String (ascii_of_N (128 + n mod 64)) ""))).

Definition utf8_encode_item (i : item) : string :=
  match i with
  | Char n => utf8_encode_cp n
  | Byte b => String b ""
  end.

Fixpoint utf8_encode (l : list item) : string :=
  match l with
  | [] => ""
  | i :: r => utf8_encode_item i ++ utf8_encode r
  end.

(** [width] hexadecimal digits of [n], most significant first. *)
Fixpoint hex_digits (uppercase : bool) (width : nat) (n : N) : string :=
  match width with
  | O => ""
  | S w =>
      hex_digits uppercase w (n / 16)
      ++ String (hex_digit uppercase (N.to_nat (n mod 16))) ""
  end.

Fixpoint table_get (n : N) (table : list (N * list N)) : option (list N) :=
  match table with
  | [] => None
  | (k, v) :: rest => if (k =? n)%N then Some v else table_get n rest
  end.

Fixpoint in_ranges (n : N) (ranges : list (N * N)) : bool :=
  match ranges with
  | [] => false
  | (lo, hi) :: rest => ((lo <=? n) && (n <=? hi))%N || in_ranges n rest
  end.

(** The code points above ASCII that [str.upper()] changes, each with its
    full upper-case mapping (Unicode 14.0, the data of Python 3.11).  The
    mapping of a character does not depend on its neighbours. *)
Definition upper_table : list (N * list N) :=
 [
  (181, [924]); (223, [83; 83]); (224, [192]); (225, [193]); (226, [194]);
   (227, [195]); (228, [196]); (229, [197]); (230, [198]); (231, [199]);
   (232, [200]); (233, [201]); (234, [202]); (235, [203]); (236, [204]);
   (237, [205]); (238, [206]); (239, [207]); (240, [208]); (241, [209]);
   (242, [210]); (243, [211]); (244, [212]); (245, [213]); (246, [214]);
   (248, [216]); (249, [217]); (250, [218]); (251, [219]); (252, [220]);
   (253, [221]); (254, [222]); (255, [376]); (257, [256]); (259, [258]);
   (261, [260]); (263, [262]); (265, [264]); (267, [266]); (269, [268]);
   (271, [270]); (273, [272]); (275, [274]); (277, [276]); (279, [278]);
   (281, [280]); (283, [282]); (285, [284]); (287, [286]); (289, [288]);
   (291, [290]); (293, [292]); (295, [294]); (297, [296]); (299, [298]);
   (301, [300]); (303, [302]); (305, [73]); (307, [306]); (309, [308]);
   (311, [310]); (314, [313]); (316, [315]); (318, [317]); (320, [319]);
   (322, [321]); (324, [323]); (326, [325]); (328, [327]); (329, [700; 78]);
   (331, [330]); (333, [332]); (335, [334]); (337, [336]); (339, [338]);
   (341, [340]); (343, [342]); (345, [344]); (347, [346]); (349, [348]);
   (351, [350]); (353, [352]); (355, [354]); (357, [356]); (359, [358]);
   (361, [360]); (363, [362]); (365, [364]); (367, [366]); (369, [368]);
   (371, [370]); (373, [372]); (375, [374]); (378, [377]); (380, [379]);
   (382, [381]); (383, [83]); (384, [579]); (387, [386]); (389, [388]);
   (392, [391]); (396, [395]); (402, [401]); (405, [502]); (409, [408]);
   (410, [573]); (414, [544]); (417, [416]); (419, [418]); (421, [420]);
   (424, [423]); (429, [428]); (432, [431]); (436, [435]); (438, [437]);
   (441, [440]); (445, [444]); (447, [503]); (453, [452]); (454, [452]);
   (456, [455]); (457, [455]); (459, [458]); (460, [458]); (462, [461]);
   (464, [463]); (466, [465]); (468, [467]); (470, [469]); (472, [471]);
   (474, [473]); (476, [475]); (477, [398]); (479, [478]); (481, [480]);
   (483, [482]); (485, [484]); (487, [486]); (489, [488]); (491, [490]);
   (493, [492]); (495, [494]); (496, [74; 780]); (498, [497]); (499, [497]);
   (501, [500]); (505, [504]); (507, [506]); (509, [508]); (511, [510]);
   (513, [512]); (515, [514]); (517, [516]); (519, [518]); (521, [520]);
   (523, [522]); (525, [524]); (527, [526]); (529, [528]); (531, [530]);
   (533, [532]); (535, [534]); (537, [536]); (539, [538]); (541, [540]);
   (543, [542]); (547, [546]); (549, [548]); (551, [550]); (553, [552]);
   (555, [554]); (557, [556]); (559, [558]); (561, [560]); (563, [562]);
   (572, [571]); (575, [11390]); (576, [11391]); (578, [577]); (583, [582]);
   (585, [584]); (587, [586]); (589, [588]); (591, [590]); (592, [11375]);
   (593, [11373]); (594, [11376]); (595, [385]); (596, [390]); (598, [393]);
   (599, [394]); (601, [399]); (603, [400]); (604, [42923]); (608, [403]);
   (609, [42924]); (611, [404]); (613, [42893]); (614, [42922]);
   (616, [407]); (617, [406]); (618, [42926]); (619, [11362]);
   (620, [42925]); (623, [412]); (625, [11374]); (626, [413]); (629, [415]);
   (637, [11364]); (640, [422]); (642, [42949]); (643, [425]);
   (647, [42929]); (648, [430]); (649, [580]); (650, [433]); (651, [434]);
   (652, [581]); (658, [439]); (669, [42930]); (670, [42928]); (837, [921]);
   (881, [880]); (883, [882]); (887, [886]); (891, [1021]); (892, [1022]);
   (893, [1023]); (912, [921; 776; 769]); (940, [902]); (941, [904]);
   (942, [905]); (943, [906]); (944, [933; 776; 769]); (945, [913]);
   (946, [914]); (947, [915]); (948, [916]); (949, [917]); (950, [918]);
   (951, [919]); (952, [920]); (953, [921]); (954, [922]); (955, [923]);
   (956, [924]); (957, [925]); (958, [926]); (959, [927]); (960, [928]);
   (961, [929]); (962, [931]); (963, [931]); (964, [932]); (965, [933]);
   (966, [934]); (967, [935]); (968, [936]); (969, [937]); (970, [938]);
   (971, [939]); (972, [908]); (973, [910]); (974, [911]); (976, [914]);
   (977, [920]); (981, [934]); (982, [928]); (983, [975]); (985, [984]);
   (987, [986]); (989, [988]); (991, [990]); (993, [992]); (995, [994]);
   (997, [996]); (999, [998]); (1001, [1000]); (1003, [1002]);
   (1005, [1004]); (1007, [1006]); (1008, [922]); (1009, [929]);
   (1010, [1017]); (1011, [895]); (1013, [917]); (1016, [1015]);
   (1019, [1018]); (1072, [1040]); (1073, [1041]); (1074, [1042]);
   (1075, [1043]); (1076, [1044]); (1077, [1045]); (1078, [1046]);
   (1079, [1047]); (1080, [1048]); (1081, [1049]); (1082, [1050]);
   (1083, [1051]); (1084, [1052]); (1085, [1053]); (1086, [1054]);
   (1087, [1055]); (1088, [1056]); (1089, [1057]); (1090, [1058]);
   (1091, [1059]); (1092, [1060]); (1093, [1061]); (1094, [1062]);
   (1095, [1063]); (1096, [1064]); (1097, [1065]); (1098, [1066]);
   (1099, [1067]); (1100, [1068]); (1101, [1069]); (1102, [1070]);
   (1103, [1071]); (1104, [1024]); (1105, [1025]); (1106, [1026]);
   (1107, [1027]); (1108, [1028]); (1109, [1029]); (1110, [1030]);
   (1111, [1031]); (1112, [1032]); (1113, [1033]); (1114, [1034]);
   (1115, [1035]); (1116, [1036]); (1117, [1037]); (1118, [1038]);
   (1119, [1039]); (1121, [1120]); (1123, [1122]); (1125, [1124]);
   (1127, [1126]); (1129, [1128]); (1131, [1130]); (1133, [1132]);
   (1135, [1134]); (1137, [1136]); (1139, [1138]); (1141, [1140]);
   (1143, [1142]); (1145, [1144]); (1147, [1146]); (1149, [1148]);
   (1151, [1150]); (1153, [1152]); (1163, [1162]); (1165, [1164]);
   (1167, [1166]); (1169, [1168]); (1171, [1170]); (1173, [1172]);
   (1175, [1174]); (1177, [1176]); (1179, [1178]); (1181, [1180]);
   (1183, [1182]); (1185, [1184]); (1187, [1186]); (1189, [1188]);
   (1191, [1190]); (1193, [1192]); (1195, [1194]); (1197, [1196]);
   (1199, [1198]); (1201, [1200]); (1203, [1202]); (1205, [1204]);
   (1207, [1206]); (1209, [1208]); (1211, [1210]); (1213, [1212]);
   (1215, [1214]); (1218, [1217]); (1220, [1219]); (1222, [1221]);
   (1224, [1223]); (1226, [1225]); (1228, [1227]); (1230, [1229]);
   (1231, [1216]); (1233, [1232]); (1235, [1234]); (1237, [1236]);
   (1239, [1238]); (1241, [1240]); (1243, [1242]); (1245, [1244]);
   (1247, [1246]); (1249, [1248]); (1251, [1250]); (1253, [1252]);
   (1255, [1254]); (1257, [1256]); (1259, [1258]); (1261, [1260]);
   (1263, [1262]); (1265, [1264]); (1267, [1266]); (1269, [1268]);
   (1271, [1270]); (1273, [1272]); (1275, [1274]); (1277, [1276]);
   (1279, [1278]); (1281, [1280]); (1283, [1282]); (1285, [1284]);
   (1287, [1286]); (1289, [1288]); (1291, [1290]); (1293, [1292]);
   (1295, [1294]); (1297, [1296]); (1299, [1298]); (1301, [1300]);
   (1303, [1302]); (1305, [1304]); (1307, [1306]); (1309, [1308]);
   (1311, [1310]); (1313, [1312]); (1315, [1314]); (1317, [1316]);
   (1319, [1318]); (1321, [1320]); (1323, [1322]); (1325, [1324]);
   (1327, [1326]); (1377, [1329]); (1378, [1330]); (1379, [1331]);
   (1380, [1332]); (1381, [1333]); (1382, [1334]); (1383, [1335]);
   (1384, [1336]); (1385, [1337]); (1386, [1338]); (1387, [1339]);
   (1388, [1340]); (1389, [1341]); (1390, [1342]); (1391, [1343]);
   (1392, [1344]); (1393, [1345]); (1394, [1346]); (1395, [1347]);
   (1396, [1348]); (1397, [1349]); (1398, [1350]); (1399, [1351]);
   (1400, [1352]); (1401, [1353]); (1402, [1354]); (1403, [1355]);
   (1404, [1356]); (1405, [1357]); (1406, [1358]); (1407, [1359]);
   (1408, [1360]); (1409, [1361]); (1410, [1362]); (1411, [1363]);
   (1412, [1364]); (1413, [1365]); (1414, [1366]); (1415, [1333; 1362]);
   (4304, [7312]); (4305, [7313]); (4306, [7314]); (4307, [7315]);
   (4308, [7316]); (4309, [7317]); (4310, [7318]); (4311, [7319]);
   (4312, [7320]); (4313, [7321]); (4314, [7322]); (4315, [7323]);
   (4316, [7324]); (4317, [7325]); (4318, [7326]); (4319, [7327]);
   (4320, [7328]); (4321, [7329]); (4322, [7330]); (4323, [7331]);
   (4324, [7332]); (4325, [7333]); (4326, [7334]); (4327, [7335]);
   (4328, [7336]); (4329, [7337]); (4330, [7338]); (4331, [7339]);
   (4332, [7340]); (4333, [7341]); (4334, [7342]); (4335, [7343]);
   (4336, [7344]); (4337, [7345]); (4338, [7346]); (4339, [7347]);
   (4340, [7348]); (4341, [7349]); (4342, [7350]); (4343, [7351]);
   (4344, [7352]); (4345, [7353]); (4346, [7354]); (4349, [7357]);
   (4350, [7358]); (4351, [7359]); (5112, [5104]); (5113, [5105]);
   (5114, [5106]); (5115, [5107]); (5116, [5108]); (5117, [5109]);
   (7296, [1042]); (7297, [1044]); (7298, [1054]); (7299, [1057]);
   (7300, [1058]); (7301, [1058]); (7302, [1066]); (7303, [1122]);
   (7304, [42570]); (7545, [42877]); (7549, [11363]); (7566, [42950]);
   (7681, [7680]); (7683, [7682]); (7685, [7684]); (7687, [7686]);
   (7689, [7688]); (7691, [7690]); (7693, [7692]); (7695, [7694]);
   (7697, [7696]); (7699, [7698]); (7701, [7700]); (7703, [7702]);
   (7705, [7704]); (7707, [7706]); (7709, [7708]); (7711, [7710]);
   (7713, [7712]); (7715, [7714]); (7717, [7716]); (7719, [7718]);
   (7721, [7720]); (7723, [7722]); (7725, [7724]); (7727, [7726]);
   (7729, [7728]); (7731, [7730]); (7733, [7732]); (7735, [7734]);
   (7737, [7736]); (7739, [7738]); (7741, [7740]); (7743, [7742]);
   (7745, [7744]); (7747, [7746]); (7749, [7748]); (7751, [7750]);
   (7753, [7752]); (7755, [7754]); (7757, [7756]); (7759, [7758]);
   (7761, [7760]); (7763, [7762]); (7765, [7764]); (7767, [7766]);
   (7769, [7768]); (7771, [7770]); (7773, [7772]); (7775, [7774]);
   (7777, [7776]); (7779, [7778]); (7781, [7780]); (7783, [7782]);
   (7785, [7784]); (7787, [7786]); (7789, [7788]); (7791, [7790]);
   (7793, [7792]); (7795, [7794]); (7797, [7796]); (7799, [7798]);
   (7801, [7800]); (7803, [7802]); (7805, [7804]); (7807, [7806]);
   (7809, [7808]); (7811, [7810]); (7813, [7812]); (7815, [7814]);
   (7817, [7816]); (7819, [7818]); (7821, [7820]); (7823, [7822]);
   (7825, [7824]); (7827, [7826]); (7829, [7828]); (7830, [72; 817]);
   (7831, [84; 776]); (7832, [87; 778]); (7833, [89; 778]);
   (7834, [65; 702]); (7835, [7776]); (7841, [7840]); (7843, [7842]);
   (7845, [7844]); (7847, [7846]); (7849, [7848]); (7851, [7850]);
   (7853, [7852]); (7855, [7854]); (7857, [7856]); (7859, [7858]);
   (7861, [7860]); (7863, [7862]); (7865, [7864]); (7867, [7866]);
   (7869, [7868]); (7871, [7870]); (7873, [7872]); (7875, [7874]);
   (7877, [7876]); (7879, [7878]); (7881, [7880]); (7883, [7882]);
   (7885, [7884]); (7887, [7886]); (7889, [7888]); (7891, [7890]);
   (7893, [7892]); (7895, [7894]); (7897, [7896]); (7899, [7898]);
   (7901, [7900]); (7903, [7902]); (7905, [7904]); (7907, [7906]);
   (7909, [7908]); (7911, [7910]); (7913, [7912]); (7915, [7914]);
   (7917, [7916]); (7919, [7918]); (7921, [7920]); (7923, [7922]);
   (7925, [7924]); (7927, [7926]); (7929, [7928]); (7931, [7930]);
   (7933, [7932]); (7935, [7934]); (7936, [7944]); (7937, [7945]);
   (7938, [7946]); (7939, [7947]); (7940, [7948]); (7941, [7949]);
   (7942, [7950]); (7943, [7951]); (7952, [7960]); (7953, [7961]);
   (7954, [7962]); (7955, [7963]); (7956, [7964]); (7957, [7965]);
   (7968, [7976]); (7969, [7977]); (7970, [7978]); (7971, [7979]);
   (7972, [7980]); (7973, [7981]); (7974, [7982]); (7975, [7983]);
   (7984, [7992]); (7985, [7993]); (7986, [7994]); (7987, [7995]);
   (7988, [7996]); (7989, [7997]); (7990, [7998]); (7991, [7999]);
   (8000, [8008]); (8001, [8009]); (8002, [8010]); (8003, [8011]);
   (8004, [8012]); (8005, [8013]); (8016, [933; 787]); (8017, [8025]);
   (8018, [933; 787; 768]); (8019, [8027]); (8020, [933; 787; 769]);
   (8021, [8029]); (8022, [933; 787; 834]); (8023, [8031]); (8032, [8040]);
   (8033, [8041]); (8034, [8042]); (8035, [8043]); (8036, [8044]);
   (8037, [8045]); (8038, [8046]); (8039, [8047]); (8048, [8122]);
   (8049, [8123]); (8050, [8136]); (8051, [8137]); (8052, [8138]);
   (8053, [8139]); (8054, [8154]); (8055, [8155]); (8056, [8184]);
   (8057, [8185]); (8058, [8170]); (8059, [8171]); (8060, [8186]);
   (8061, [8187]); (8064, [7944; 921]); (8065, [7945; 921]);
   (8066, [7946; 921]); (8067, [7947; 921]); (8068, [7948; 921]);
   (8069, [7949; 921]); (8070, [7950; 921]); (8071, [7951; 921]);
   (8072, [7944; 921]); (8073, [7945; 921]); (8074, [7946; 921]);
   (8075, [7947; 921]); (8076, [7948; 921]); (8077, [7949; 921]);
   (8078, [7950; 921]); (8079, [7951; 921]); (8080, [7976; 921]);
   (8081, [7977; 921]); (8082, [7978; 921]); (8083, [7979; 921]);
   (8084, [7980; 921]); (8085, [7981; 921]); (8086, [7982; 921]);
   (8087, [7983; 921]); (8088, [7976; 921]); (8089, [7977; 921]);
   (8090, [7978; 921]); (8091, [7979; 921]); (8092, [7980; 921]);
   (8093, [7981; 921]); (8094, [7982; 921]); (8095, [7983; 921]);
   (8096, [8040; 921]); (8097, [8041; 921]); (8098, [8042; 921]);
   (8099, [8043; 921]); (8100, [8044; 921]); (8101, [8045; 921]);
   (8102, [8046; 921]); (8103, [8047; 921]); (8104, [8040; 921]);
   (8105, [8041; 921]); (8106, [8042; 921]); (8107, [8043; 921]);
   (8108, [8044; 921]); (8109, [8045; 921]); (8110, [8046; 921]);
   (8111, [8047; 921]); (8112, [8120]); (8113, [8121]); (8114, [8122; 921]);
   (8115, [913; 921]); (8116, [902; 921]); (8118, [913; 834]);
   (8119, [913; 834; 921]); (8124, [913; 921]); (8126, [921]);
   (8130, [8138; 921]); (8131, [919; 921]); (8132, [905; 921]);
   (8134, [919; 834]); (8135, [919; 834; 921]); (8140, [919; 921]);
   (8144, [8152]); (8145, [8153]); (8146, [921; 776; 768]);
   (8147, [921; 776; 769]); (8150, [921; 834]); (8151, [921; 776; 834]);
   (8160, [8168]); (8161, [8169]); (8162, [933; 776; 768]);
   (8163, [933; 776; 769]); (8164, [929; 787]); (8165, [8172]);
   (8166, [933; 834]); (8167, [933; 776; 834]); (8178, [8186; 921]);
   (8179, [937; 921]); (8180, [911; 921]); (8182, [937; 834]);
   (8183, [937; 834; 921]); (8188, [937; 921]); (8526, [8498]);
   (8560, [8544]); (8561, [8545]); (8562, [8546]); (8563, [8547]);
   (8564, [8548]); (8565, [8549]); (8566, [8550]); (8567, [8551]);
   (8568, [8552]); (8569, [8553]); (8570, [8554]); (8571, [8555]);
   (8572, [8556]); (8573, [8557]); (8574, [8558]); (8575, [8559]);
   (8580, [8579]); (9424, [9398]); (9425, [9399]); (9426, [9400]);
   (9427, [9401]); (9428, [9402]); (9429, [9403]); (9430, [9404]);
   (9431, [9405]); (9432, [9406]); (9433, [9407]); (9434, [9408]);
   (9435, [9409]); (9436, [9410]); (9437, [9411]); (9438, [9412]);
   (9439, [9413]); (9440, [9414]); (9441, [9415]); (9442, [9416]);
   (9443, [9417]); (9444, [9418]); (9445, [9419]); (9446, [9420]);
   (9447, [9421]); (9448, [9422]); (9449, [9423]); (11312, [11264]);
   (11313, [11265]); (11314, [11266]); (11315, [11267]); (11316, [11268]);
   (11317, [11269]); (11318, [11270]); (11319, [11271]); (11320, [11272]);
   (11321, [11273]); (11322, [11274]); (11323, [11275]); (11324, [11276]);
   (11325, [11277]); (11326, [11278]); (11327, [11279]); (11328, [11280]);
   (11329, [11281]); (11330, [11282]); (11331, [11283]); (11332, [11284]);
   (11333, [11285]); (11334, [11286]); (11335, [11287]); (11336, [11288]);
   (11337, [11289]); (11338, [11290]); (11339, [11291]); (11340, [11292]);
   (11341, [11293]); (11342, [11294]); (11343, [11295]); (11344, [11296]);
   (11345, [11297]); (11346, [11298]); (11347, [11299]); (11348, [11300]);
   (11349, [11301]); (11350, [11302]); (11351, [11303]); (11352, [11304]);
   (11353, [11305]); (11354, [11306]); (11355, [11307]); (11356, [11308]);
   (11357, [11309]); (11358, [11310]); (11359, [11311]); (11361, [11360]);
   (11365, [570]); (11366, [574]); (11368, [11367]); (11370, [11369]);
   (11372, [11371]); (11379, [11378]); (11382, [11381]); (11393, [11392]);
   (11395, [11394]); (11397, [11396]); (11399, [11398]); (11401, [11400]);
   (11403, [11402]); (11405, [11404]); (11407, [11406]); (11409, [11408]);
   (11411, [11410]); (11413, [11412]); (11415, [11414]); (11417, [11416]);
   (11419, [11418]); (11421, [11420]); (11423, [11422]); (11425, [11424]);
   (11427, [11426]); (11429, [11428]); (11431, [11430]); (11433, [11432]);
   (11435, [11434]); (11437, [11436]); (11439, [11438]); (11441, [11440]);
   (11443, [11442]); (11445, [11444]); (11447, [11446]); (11449, [11448]);
   (11451, [11450]); (11453, [11452]); (11455, [11454]); (11457, [11456]);
   (11459, [11458]); (11461, [11460]); (11463, [11462]); (11465, [11464]);
   (11467, [11466]); (11469, [11468]); (11471, [11470]); (11473, [11472]);
   (11475, [11474]); (11477, [11476]); (11479, [11478]); (11481, [11480]);
   (11483, [11482]); (11485, [11484]); (11487, [11486]); (11489, [11488]);
   (11491, [11490]); (11500, [11499]); (11502, [11501]); (11507, [11506]);
   (11520, [4256]); (11521, [4257]); (11522, [4258]); (11523, [4259]);
   (11524, [4260]); (11525, [4261]); (11526, [4262]); (11527, [4263]);
   (11528, [4264]); (11529, [4265]); (11530, [4266]); (11531, [4267]);
   (11532, [4268]); (11533, [4269]); (11534, [4270]); (11535, [4271]);
   (11536, [4272]); (11537, [4273]); (11538, [4274]); (11539, [4275]);
   (11540, [4276]); (11541, [4277]); (11542, [4278]); (11543, [4279]);
   (11544, [4280]); (11545, [4281]); (11546, [4282]); (11547, [4283]);
   (11548, [4284]); (11549, [4285]); (11550, [4286]); (11551, [4287]);
   (11552, [4288]); (11553, [4289]); (11554, [4290]); (11555, [4291]);
   (11556, [4292]); (11557, [4293]); (11559, [4295]); (11565, [4301]);
   (42561, [42560]); (42563, [42562]); (42565, [42564]); (42567, [42566]);
   (42569, [42568]); (42571, [42570]); (42573, [42572]); (42575, [42574]);
   (42577, [42576]); (42579, [42578]); (42581, [42580]); (42583, [42582]);
   (42585, [42584]); (42587, [42586]); (42589, [42588]); (42591, [42590]);
   (42593, [42592]); (42595, [42594]); (42597, [42596]); (42599, [42598]);
   (42601, [42600]); (42603, [42602]); (42605, [42604]); (42625, [42624]);
   (42627, [42626]); (42629, [42628]); (42631, [42630]); (42633, [42632]);
   (42635, [42634]); (42637, [42636]); (42639, [42638]); (42641, [42640]);
   (42643, [42642]); (42645, [42644]); (42647, [42646]); (42649, [42648]);
   (42651, [42650]); (42787, [42786]); (42789, [42788]); (42791, [42790]);
   (42793, [42792]); (42795, [42794]); (42797, [42796]); (42799, [42798]);
   (42803, [42802]); (42805, [42804]); (42807, [42806]); (42809, [42808]);
   (42811, [42810]); (42813, [42812]); (42815, [42814]); (42817, [42816]);
   (42819, [42818]); (42821, [42820]); (42823, [42822]); (42825, [42824]);
   (42827, [42826]); (42829, [42828]); (42831, [42830]); (42833, [42832]);
   (42835, [42834]); (42837, [42836]); (42839, [42838]); (42841, [42840]);
   (42843, [42842]); (42845, [42844]); (42847, [42846]); (42849, [42848]);
   (42851, [42850]); (42853, [42852]); (42855, [42854]); (42857, [42856]);
   (42859, [42858]); (42861, [42860]); (42863, [42862]); (42874, [42873]);
   (42876, [42875]); (42879, [42878]); (42881, [42880]); (42883, [42882]);
   (42885, [42884]); (42887, [42886]); (42892, [42891]); (42897, [42896]);
   (42899, [42898]); (42900, [42948]); (42903, [42902]); (42905, [42904]);
   (42907, [42906]); (42909, [42908]); (42911, [42910]); (42913, [42912]);
   (42915, [42914]); (42917, [42916]); (42919, [42918]); (42921, [42920]);
   (42933, [42932]); (42935, [42934]); (42937, [42936]); (42939, [42938]);
   (42941, [42940]); (42943, [42942]); (42945, [42944]); (42947, [42946]);
   (42952, [42951]); (42954, [42953]); (42961, [42960]); (42967, [42966]);
   (42969, [42968]); (42998, [42997]); (43859, [42931]); (43888, [5024]);
   (43889, [5025]); (43890, [5026]); (43891, [5027]); (43892, [5028]);
   (43893, [5029]); (43894, [5030]); (43895, [5031]); (43896, [5032]);
   (43897, [5033]); (43898, [5034]); (43899, [5035]); (43900, [5036]);
   (43901, [5037]); (43902, [5038]); (43903, [5039]); (43904, [5040]);
   (43905, [5041]); (43906, [5042]); (43907, [5043]); (43908, [5044]);
   (43909, [5045]); (43910, [5046]); (43911, [5047]); (43912, [5048]);
   (43913, [5049]); (43914, [5050]); (43915, [5051]); (43916, [5052]);
   (43917, [5053]); (43918, [5054]); (43919, [5055]); (43920, [5056]);
   (43921, [5057]); (43922, [5058]); (43923, [5059]); (43924, [5060]);
   (43925, [5061]); (43926, [5062]); (43927, [5063]); (43928, [5064]);
   (43929, [5065]); (43930, [5066]); (43931, [5067]); (43932, [5068]);
   (43933, [5069]); (43934, [5070]); (43935, [5071]); (43936, [5072]);
   (43937, [5073]); (43938, [5074]); (43939, [5075]); (43940, [5076]);
   (43941, [5077]); (43942, [5078]); (43943, [5079]); (43944, [5080]);
   (43945, [5081]); (43946, [5082]); (43947, [5083]); (43948, [5084]);
   (43949, [5085]); (43950, [5086]); (43951, [5087]); (43952, [5088]);
   (43953, [5089]); (43954, [5090]); (43955, [5091]); (43956, [5092]);
   (43957, [5093]); (43958, [5094]); (43959, [5095]); (43960, [5096]);
   (43961, [5097]); (43962, [5098]); (43963, [5099]); (43964, [5100]);
   (43965, [5101]); (43966, [5102]); (43967, [5103]); (64256, [70; 70]);
   (64257, [70; 73]); (64258, [70; 76]); (64259, [70; 70; 73]);
   (64260, [70; 70; 76]); (64261, [83; 84]); (64262, [83; 84]);
   (64275, [1348; 1350]); (64276, [1348; 1333]); (64277, [1348; 1339]);
   (64278, [1358; 1350]); (64279, [1348; 1341]); (65345, [65313]);
   (65346, [65314]); (65347, [65315]); (65348, [65316]); (65349, [65317]);
   (65350, [65318]); (65351, [65319]); (65352, [65320]); (65353, [65321]);
   (65354, [65322]); (65355, [65323]); (65356, [65324]); (65357, [65325]);
   (65358, [65326]); (65359, [65327]); (65360, [65328]); (65361, [65329]);
   (65362, [65330]); (65363, [65331]); (65364, [65332]); (65365, [65333]);
   (65366, [65334]); (65367, [65335]); (65368, [65336]); (65369, [65337]);
   (65370, [65338]); (66600, [66560]); (66601, [66561]); (66602, [66562]);
   (66603, [66563]); (66604, [66564]); (66605, [66565]); (66606, [66566]);
   (66607, [66567]); (66608, [66568]); (66609, [66569]); (66610, [66570]);
   (66611, [66571]); (66612, [66572]); (66613, [66573]); (66614, [66574]);
   (66615, [66575]); (66616, [66576]); (66617, [66577]); (66618, [66578]);
   (66619, [66579]); (66620, [66580]); (66621, [66581]); (66622, [66582]);
   (66623, [66583]); (66624, [66584]); (66625, [66585]); (66626, [66586]);
   (66627, [66587]); (66628, [66588]); (66629, [66589]); (66630, [66590]);
   (66631, [66591]); (66632, [66592]); (66633, [66593]); (66634, [66594]);
   (66635, [66595]); (66636, [66596]); (66637, [66597]); (66638, [66598]);
   (66639, [66599]); (66776, [66736]); (66777, [66737]); (66778, [66738]);
   (66779, [66739]); (66780, [66740]); (66781, [66741]); (66782, [66742]);
   (66783, [66743]); (66784, [66744]); (66785, [66745]); (66786, [66746]);
   (66787, [66747]); (66788, [66748]); (66789, [66749]); (66790, [66750]);
   (66791, [66751]); (66792, [66752]); (66793, [66753]); (66794, [66754]);
   (66795, [66755]); (66796, [66756]); (66797, [66757]); (66798, [66758]);
   (66799, [66759]); (66800, [66760]); (66801, [66761]); (66802, [66762]);
   (66803, [66763]); (66804, [66764]); (66805, [66765]); (66806, [66766]);
   (66807, [66767]); (66808, [66768]); (66809, [66769]); (66810, [66770]);
   (66811, [66771]); (66967, [66928]); (66968, [66929]); (66969, [66930]);
   (66970, [66931]); (66971, [66932]); (66972, [66933]); (66973, [66934]);
   (66974, [66935]); (66975, [66936]); (66976, [66937]); (66977, [66938]);
   (66979, [66940]); (66980, [66941]); (66981, [66942]); (66982, [66943]);
   (66983, [66944]); (66984, [66945]); (66985, [66946]); (66986, [66947]);
   (66987, [66948]); (66988, [66949]); (66989, [66950]); (66990, [66951]);
   (66991, [66952]); (66992, [66953]); (66993, [66954]); (66995, [66956]);
   (66996, [66957]); (66997, [66958]); (66998, [66959]); (66999, [66960]);
   (67000, [66961]); (67001, [66962]); (67003, [66964]); (67004, [66965]);
   (68800, [68736]); (68801, [68737]); (68802, [68738]); (68803, [68739]);
   (68804, [68740]); (68805, [68741]); (68806, [68742]); (68807, [68743]);
   (68808, [68744]); (68809, [68745]); (68810, [68746]); (68811, [68747]);
   (68812, [68748]); (68813, [68749]); (68814, [68750]); (68815, [68751]);
   (68816, [68752]); (68817, [68753]); (68818, [68754]); (68819, [68755]);
   (68820, [68756]); (68821, [68757]); (68822, [68758]); (68823, [68759]);
   (68824, [68760]); (68825, [68761]); (68826, [68762]); (68827, [68763]);
   (68828, [68764]); (68829, [68765]); (68830, [68766]); (68831, [68767]);
   (68832, [68768]); (68833, [68769]); (68834, [68770]); (68835, [68771]);
   (68836, [68772]); (68837, [68773]); (68838, [68774]); (68839, [68775]);
   (68840, [68776]); (68841, [68777]); (68842, [68778]); (68843, [68779]);
   (68844, [68780]); (68845, [68781]); (68846, [68782]); (68847, [68783]);
   (68848, [68784]); (68849, [68785]); (68850, [68786]); (71872, [71840]);
   (71873, [71841]); (71874, [71842]); (71875, [71843]); (71876, [71844]);
   (71877, [71845]); (71878, [71846]); (71879, [71847]); (71880, [71848]);
   (71881, [71849]); (71882, [71850]); (71883, [71851]); (71884, [71852]);
   (71885, [71853]); (71886, [71854]); (71887, [71855]); (71888, [71856]);
   (71889, [71857]); (71890, [71858]); (71891, [71859]); (71892, [71860]);
   (71893, [71861]); (71894, [71862]); (71895, [71863]); (71896, [71864]);
   (71897, [71865]); (71898, [71866]); (71899, [71867]); (71900, [71868]);
   (71901, [71869]); (71902, [71870]); (71903, [71871]); (93792, [93760]);
   (93793, [93761]); (93794, [93762]); (93795, [93763]); (93796, [93764]);
   (93797, [93765]); (93798, [93766]); (93799, [93767]); (93800, [93768]);
   (93801, [93769]); (93802, [93770]); (93803, [93771]); (93804, [93772]);
   (93805, [93773]); (93806, [93774]); (93807, [93775]); (93808, [93776]);
   (93809, [93777]); (93810, [93778]); (93811, [93779]); (93812, [93780]);
   (93813, [93781]); (93814, [93782]); (93815, [93783]); (93816, [93784]);
   (93817, [93785]); (93818, [93786]); (93819, [93787]); (93820, [93788]);
   (93821, [93789]); (93822, [93790]); (93823, [93791]); (125218, [125184]);
   (125219, [125185]); (125220, [125186]); (125221, [125187]);
   (125222, [125188]); (125223, [125189]); (125224, [125190]);
   (125225, [125191]); (125226, [125192]); (125227, [125193]);
   (125228, [125194]); (125229, [125195]); (125230, [125196]);
   (125231, [125197]); (125232, [125198]); (125233, [125199]);
   (125234, [125200]); (125235, [125201]); (125236, [125202]);
   (125237, [125203]); (125238, [125204]); (125239, [125205]);
   (125240, [125206]); (125241, [125207]); (125242, [125208]);
   (125243, [125209]); (125244, [125210]); (125245, [125211]);
   (125246, [125212]); (125247, [125213]); (125248, [125214]);
   (125249, [125215]); (125250, [125216]); (125251, [125217])
 ]%N.

(** The ranges of code points above ASCII that [str.isprintable()] refuses
    (Unicode 14.0): controls, format characters, separators other than the
    space, surrogates, private use and unassigned code points. *)
Definition nonprintable_ranges : list (N * N) :=
 [
  (128, 160); (173, 173); (888, 889); (896, 899); (907, 907); (909, 909);
   (930, 930); (1328, 1328); (1367, 1368); (1419, 1420); (1424, 1424);
   (1480, 1487); (1515, 1518); (1525, 1541); (1564, 1564); (1757, 1757);
   (1806, 1807); (1867, 1868); (1970, 1983); (2043, 2044); (2094, 2095);
   (2111, 2111); (2140, 2141); (2143, 2143); (2155, 2159); (2191, 2199);
   (2274, 2274); (2436, 2436); (2445, 2446); (2449, 2450); (2473, 2473);
   (2481, 2481); (2483, 2485); (2490, 2491); (2501, 2502); (2505, 2506);
   (2511, 2518); (2520, 2523); (2526, 2526); (2532, 2533); (2559, 2560);
   (2564, 2564); (2571, 2574); (2577, 2578); (2601, 2601); (2609, 2609);
   (2612, 2612); (2615, 2615); (2618, 2619); (2621, 2621); (2627, 2630);
   (2633, 2634); (2638, 2640); (2642, 2648); (2653, 2653); (2655, 2661);
   (2679, 2688); (2692, 2692); (2702, 2702); (2706, 2706); (2729, 2729);
   (2737, 2737); (2740, 2740); (2746, 2747); (2758, 2758); (2762, 2762);
   (2766, 2767); (2769, 2783); (2788, 2789); (2802, 2808); (2816, 2816);
   (2820, 2820); (2829, 2830); (2833, 2834); (2857, 2857); (2865, 2865);
   (2868, 2868); (2874, 2875); (2885, 2886); (2889, 2890); (2894, 2900);
   (2904, 2907); (2910, 2910); (2916, 2917); (2936, 2945); (2948, 2948);
   (2955, 2957); (2961, 2961); (2966, 2968); (2971, 2971); (2973, 2973);
   (2976, 2978); (2981, 2983); (2987, 2989); (3002, 3005); (3011, 3013);
   (3017, 3017); (3022, 3023); (3025, 3030); (3032, 3045); (3067, 3071);
   (3085, 3085); (3089, 3089); (3113, 3113); (3130, 3131); (3141, 3141);
   (3145, 3145); (3150, 3156); (3159, 3159); (3163, 3164); (3166, 3167);
   (3172, 3173); (3184, 3190); (3213, 3213); (3217, 3217); (3241, 3241);
   (3252, 3252); (3258, 3259); (3269, 3269); (3273, 3273); (3278, 3284);
   (3287, 3292); (3295, 3295); (3300, 3301); (3312, 3312); (3315, 3327);
   (3341, 3341); (3345, 3345); (3397, 3397); (3401, 3401); (3408, 3411);
   (3428, 3429); (3456, 3456); (3460, 3460); (3479, 3481); (3506, 3506);
   (3516, 3516); (3518, 3519); (3527, 3529); (3531, 3534); (3541, 3541);
   (3543, 3543); (3552, 3557); (3568, 3569); (3573, 3584); (3643, 3646);
   (3676, 3712); (3715, 3715); (3717, 3717); (3723, 3723); (3748, 3748);
   (3750, 3750); (3774, 3775); (3781, 3781); (3783, 3783); (3790, 3791);
   (3802, 3803); (3808, 3839); (3912, 3912); (3949, 3952); (3992, 3992);
   (4029, 4029); (4045, 4045); (4059, 4095); (4294, 4294); (4296, 4300);
   (4302, 4303); (4681, 4681); (4686, 4687); (4695, 4695); (4697, 4697);
   (4702, 4703); (4745, 4745); (4750, 4751); (4785, 4785); (4790, 4791);
   (4799, 4799); (4801, 4801); (4806, 4807); (4823, 4823); (4881, 4881);
   (4886, 4887); (4955, 4956); (4989, 4991); (5018, 5023); (5110, 5111);
   (5118, 5119); (5760, 5760); (5789, 5791); (5881, 5887); (5910, 5918);
   (5943, 5951); (5972, 5983); (5997, 5997); (6001, 6001); (6004, 6015);
   (6110, 6111); (6122, 6127); (6138, 6143); (6158, 6158); (6170, 6175);
   (6265, 6271); (6315, 6319); (6390, 6399); (6431, 6431); (6444, 6447);
   (6460, 6463); (6465, 6467); (6510, 6511); (6517, 6527); (6572, 6575);
   (6602, 6607); (6619, 6621); (6684, 6685); (6751, 6751); (6781, 6782);
   (6794, 6799); (6810, 6815); (6830, 6831); (6863, 6911); (6989, 6991);
   (7039, 7039); (7156, 7163); (7224, 7226); (7242, 7244); (7305, 7311);
   (7355, 7356); (7368, 7375); (7419, 7423); (7958, 7959); (7966, 7967);
   (8006, 8007); (8014, 8015); (8024, 8024); (8026, 8026); (8028, 8028);
   (8030, 8030); (8062, 8063); (8117, 8117); (8133, 8133); (8148, 8149);
   (8156, 8156); (8176, 8177); (8181, 8181); (8191, 8207); (8232, 8239);
   (8287, 8303); (8306, 8307); (8335, 8335); (8349, 8351); (8385, 8399);
   (8433, 8447); (8588, 8591); (9255, 9279); (9291, 9311); (11124, 11125);
   (11158, 11158); (11508, 11512); (11558, 11558); (11560, 11564);
   (11566, 11567); (11624, 11630); (11633, 11646); (11671, 11679);
   (11687, 11687); (11695, 11695); (11703, 11703); (11711, 11711);
   (11719, 11719); (11727, 11727); (11735, 11735); (11743, 11743);
   (11870, 11903); (11930, 11930); (12020, 12031); (12246, 12271);
   (12284, 12288); (12352, 12352); (12439, 12440); (12544, 12548);
   (12592, 12592); (12687, 12687); (12772, 12783); (12831, 12831);
   (42125, 42127); (42183, 42191); (42540, 42559); (42744, 42751);
   (42955, 42959); (42962, 42962); (42964, 42964); (42970, 42993);
   (43053, 43055); (43066, 43071); (43128, 43135); (43206, 43213);
   (43226, 43231); (43348, 43358); (43389, 43391); (43470, 43470);
   (43482, 43485); (43519, 43519); (43575, 43583); (43598, 43599);
   (43610, 43611); (43715, 43738); (43767, 43776); (43783, 43784);
   (43791, 43792); (43799, 43807); (43815, 43815); (43823, 43823);
   (43884, 43887); (44014, 44015); (44026, 44031); (55204, 55215);
   (55239, 55242); (55292, 63743); (64110, 64111); (64218, 64255);
   (64263, 64274); (64280, 64284); (64311, 64311); (64317, 64317);
   (64319, 64319); (64322, 64322); (64325, 64325); (64451, 64466);
   (64912, 64913); (64968, 64974); (64976, 65007); (65050, 65055);
   (65107, 65107); (65127, 65127); (65132, 65135); (65141, 65141);
   (65277, 65280); (65471, 65473); (65480, 65481); (65488, 65489);
   (65496, 65497); (65501, 65503); (65511, 65511); (65519, 65531);
   (65534, 65535); (65548, 65548); (65575, 65575); (65595, 65595);
   (65598, 65598); (65614, 65615); (65630, 65663); (65787, 65791);
   (65795, 65798); (65844, 65846); (65935, 65935); (65949, 65951);
   (65953, 65999); (66046, 66175); (66205, 66207); (66257, 66271);
   (66300, 66303); (66340, 66348); (66379, 66383); (66427, 66431);
   (66462, 66462); (66500, 66503); (66518, 66559); (66718, 66719);
   (66730, 66735); (66772, 66775); (66812, 66815); (66856, 66863);
   (66916, 66926); (66939, 66939); (66955, 66955); (66963, 66963);
   (66966, 66966); (66978, 66978); (66994, 66994); (67002, 67002);
   (67005, 67071); (67383, 67391); (67414, 67423); (67432, 67455);
   (67462, 67462); (67505, 67505); (67515, 67583); (67590, 67591);
   (67593, 67593); (67638, 67638); (67641, 67643); (67645, 67646);
   (67670, 67670); (67743, 67750); (67760, 67807); (67827, 67827);
   (67830, 67834); (67868, 67870); (67898, 67902); (67904, 67967);
   (68024, 68027); (68048, 68049); (68100, 68100); (68103, 68107);
   (68116, 68116); (68120, 68120); (68150, 68151); (68155, 68158);
   (68169, 68175); (68185, 68191); (68256, 68287); (68327, 68330);
   (68343, 68351); (68406, 68408); (68438, 68439); (68467, 68471);
   (68498, 68504); (68509, 68520); (68528, 68607); (68681, 68735);
   (68787, 68799); (68851, 68857); (68904, 68911); (68922, 69215);
   (69247, 69247); (69290, 69290); (69294, 69295); (69298, 69375);
   (69416, 69423); (69466, 69487); (69514, 69551); (69580, 69599);
   (69623, 69631); (69710, 69713); (69750, 69758); (69821, 69821);
   (69827, 69839); (69865, 69871); (69882, 69887); (69941, 69941);
   (69960, 69967); (70007, 70015); (70112, 70112); (70133, 70143);
   (70162, 70162); (70207, 70271); (70279, 70279); (70281, 70281);
   (70286, 70286); (70302, 70302); (70314, 70319); (70379, 70383);
   (70394, 70399); (70404, 70404); (70413, 70414); (70417, 70418);
   (70441, 70441); (70449, 70449); (70452, 70452); (70458, 70458);
   (70469, 70470); (70473, 70474); (70478, 70479); (70481, 70486);
   (70488, 70492); (70500, 70501); (70509, 70511); (70517, 70655);
   (70748, 70748); (70754, 70783); (70856, 70863); (70874, 71039);
   (71094, 71095); (71134, 71167); (71237, 71247); (71258, 71263);
   (71277, 71295); (71354, 71359); (71370, 71423); (71451, 71452);
   (71468, 71471); (71495, 71679); (71740, 71839); (71923, 71934);
   (71943, 71944); (71946, 71947); (71956, 71956); (71959, 71959);
   (71990, 71990); (71993, 71994); (72007, 72015); (72026, 72095);
   (72104, 72105); (72152, 72153); (72165, 72191); (72264, 72271);
   (72355, 72367); (72441, 72703); (72713, 72713); (72759, 72759);
   (72774, 72783); (72813, 72815); (72848, 72849); (72872, 72872);
   (72887, 72959); (72967, 72967); (72970, 72970); (73015, 73017);
   (73019, 73019); (73022, 73022); (73032, 73039); (73050, 73055);
   (73062, 73062); (73065, 73065); (73103, 73103); (73106, 73106);
   (73113, 73119); (73130, 73439); (73465, 73647); (73649, 73663);
   (73714, 73726); (74650, 74751); (74863, 74863); (74869, 74879);
   (75076, 77711); (77811, 77823); (78895, 82943); (83527, 92159);
   (92729, 92735); (92767, 92767); (92778, 92781); (92863, 92863);
   (92874, 92879); (92910, 92911); (92918, 92927); (92998, 93007);
   (93018, 93018); (93026, 93026); (93048, 93052); (93072, 93759);
   (93851, 93951); (94027, 94030); (94088, 94094); (94112, 94175);
   (94181, 94191); (94194, 94207); (100344, 100351); (101590, 101631);
   (101641, 110575); (110580, 110580); (110588, 110588); (110591, 110591);
   (110883, 110927); (110931, 110947); (110952, 110959); (111356, 113663);
   (113771, 113775); (113789, 113791); (113801, 113807); (113818, 113819);
   (113824, 118527); (118574, 118575); (118599, 118607); (118724, 118783);
   (119030, 119039); (119079, 119080); (119155, 119162); (119275, 119295);
   (119366, 119519); (119540, 119551); (119639, 119647); (119673, 119807);
   (119893, 119893); (119965, 119965); (119968, 119969); (119971, 119972);
   (119975, 119976); (119981, 119981); (119994, 119994); (119996, 119996);
   (120004, 120004); (120070, 120070); (120075, 120076); (120085, 120085);
   (120093, 120093); (120122, 120122); (120127, 120127); (120133, 120133);
   (120135, 120137); (120145, 120145); (120486, 120487); (120780, 120781);
   (121484, 121498); (121504, 121504); (121520, 122623); (122655, 122879);
   (122887, 122887); (122905, 122906); (122914, 122914); (122917, 122917);
   (122923, 123135); (123181, 123183); (123198, 123199); (123210, 123213);
   (123216, 123535); (123567, 123583); (123642, 123646); (123648, 124895);
   (124903, 124903); (124908, 124908); (124911, 124911); (124927, 124927);
   (125125, 125126); (125143, 125183); (125260, 125263); (125274, 125277);
   (125280, 126064); (126133, 126208); (126270, 126463); (126468, 126468);
   (126496, 126496); (126499, 126499); (126501, 126502); (126504, 126504);
   (126515, 126515); (126520, 126520); (126522, 126522); (126524, 126529);
   (126531, 126534); (126536, 126536); (126538, 126538); (126540, 126540);
   (126544, 126544); (126547, 126547); (126549, 126550); (126552, 126552);
   (126554, 126554); (126556, 126556); (126558, 126558); (126560, 126560);
   (126563, 126563); (126565, 126566); (126571, 126571); (126579, 126579);
   (126584, 126584); (126589, 126589); (126591, 126591); (126602, 126602);
   (126620, 126624); (126628, 126628); (126634, 126634); (126652, 126703);
   (126706, 126975); (127020, 127023); (127124, 127135); (127151, 127152);
   (127168, 127168); (127184, 127184); (127222, 127231); (127406, 127461);
   (127491, 127503); (127548, 127551); (127561, 127567); (127570, 127583);
   (127590, 127743); (128728, 128732); (128749, 128751); (128765, 128767);
   (128884, 128895); (128985, 128991); (129004, 129007); (129009, 129023);
   (129036, 129039); (129096, 129103); (129114, 129119); (129160, 129167);
   (129198, 129199); (129202, 129279); (129620, 129631); (129646, 129647);
   (129653, 129655); (129661, 129663); (129671, 129679); (129709, 129711);
   (129723, 129727); (129734, 129743); (129754, 129759); (129768, 129775);
   (129783, 129791); (129939, 129939); (129995, 130031); (130042, 131071);
   (173792, 173823); (177977, 177983); (178206, 178207); (183970, 183983);
   (191457, 194559); (195102, 196607); (201547, 917759); (918000, 1114111)
 ]%N.

Definition upper_cp (n : N) : list N :=
  if (n <? 128)%N then
    if ((97 <=? n) && (n <=? 122))%N then [(n - 32)%N] else [n]
  else
    match table_get n upper_table with
    | Some u => u
    | None => [n]
    end.

Definition upper_item (i : item) : list item :=
  match i with
  | Char n => map Char (upper_cp n)
  | Byte b => [Byte b]
  end.

(** [s.upper()] *)
Definition upper (s : string) : string :=
  utf8_encode (flat_map upper_item (utf8_decode s)).

Definition printable_cp (n : N) : bool :=
  if (n <? 128)%N then ((32 <=? n) && (n <? 127))%N
  else negb (in_ranges n nonprintable_ranges).

(** *** Values

    The JSON-compatible values that travel through the client: request
    bodies, query parameters and decoded responses. *)

Inductive value : Type :=
| VNone
| VBool (b : bool)
| VInt (n : Z)
| VStr (s : string)
| VList (items : list value)
| VDict (items : list (string * value)).

Definition dict := list (string * value).

(** Truth value of an [Optional[Dict]] argument: [None] and [{}] are falsy. *)
Definition truthy (d : option dict) : bool :=
  match d with
  | Some (_ :: _) => true
  | _ => false
  end.

Definition is_None (v : value) : bool :=
  match v with VNone => true | _ => false end.

Fixpoint dict_get (k : string) (d : dict) : option value :=
  match d with
  | [] => None
  | (k', v) :: rest => if k' =? k then Some v else dict_get k rest
  end.

(** [d[k] = v]: an existing key keeps its position, a new key goes last. *)
Fixpoint dict_set (d : dict) (k : string) (v : value) : dict :=
  match d with
  | [] => [(k, v)]
  | (k', v') :: rest =>
      if k' =? k then (k', v) :: rest else (k', v') :: dict_set rest k v
  end.

(** *** [repr] and [str] *)

(** An ASCII character inside [repr(s)], [q] being the quote in use. *)
Definition repr_ascii (q c : ascii) : string :=
  let n := nat_of_ascii c in
  if (c =? q)%char || (c =? backslash)%char then String backslash (String c "")
  else if (n =? 9)%nat then String backslash "t"
  else if (n =? 10)%nat then String backslash "n"
  else if (n =? 13)%nat then String backslash "r"
  else if ((n <? 32) || (n =? 127))%nat then String backslash ("x" ++ hex2 false n)
  else String c "".

(** Above ASCII a printable character stands for itself and any other is
    escaped as [\xhh], [\uhhhh] or [\Uhhhhhhhh], by its size. *)
Definition repr_item (q : ascii) (i : item) : string :=
  match i with
  | Byte b => String b ""
  | Char n =>
      if (n <? 128)%N then repr_ascii q (ascii_of_N n)
      else if printable_cp n then utf8_encode_cp n
      else if (n <? 256)%N then String backslash ("x" ++ hex_digits false 2 n)
      else if (n <? 65536)%N then String backslash ("u" ++ hex_digits false 4 n)
      else String backslash ("U" ++ hex_digits false 8 n)
  end.

Fixpoint concat_map {A : Type} (f : A -> string) (l : list A) : string :=
  match l with
  | [] => ""
  | x :: r => f x ++ concat_map f r
  end.

(** [repr(s)] for a [str]: single quotes unless the text has a single quote
    and no double quote. *)
Definition repr_str (s : string) : string :=
  let q :=
    if str_in (String squote "") s && negb (str_in (String dquote "") s)
    then dquote else squote in
  String q (concat_map (repr_item q) (utf8_decode s)) ++ String q "".

Fixpoint repr (v : value) : string :=
  match v with
  | VNone => "None"
  | VBool b => if b then "True" else "False"
  | VInt n => str_int n
  | VStr s => repr_str s
  | VList items => "[" ++ join ", " (map repr items) ++ "]"
  | VDict items =>
      "{" ++ join ", " (map (fun '(k, x) => repr_str k ++ ": " ++ repr x) items) ++ "}"
  end.

(** [str(v)], which is also what an f-string placeholder [{v}] produces. *)
Definition str (v : value) : string :=
  match v with
  | VStr s => s
  | _ => repr v
  end.

(** *** [json.dumps]

    Default settings: separators [", "] and [": "], [ensure_ascii=True]. *)

Definition json_escape_ascii (c : ascii) : string :=
  let n := nat_of_ascii c in
  if (c =? dquote)%char || (c =? backslash)%char then String backslash (String c "")
  else if (n =? 8)%nat then String backslash "b"
  else if (n =? 9)%nat then String backslash "t"
  else if (n =? 10)%nat then String backslash "n"
  else if (n =? 12)%nat then String backslash "f"
  else if (n =? 13)%nat then String backslash "r"
  else if ((n <? 32) || (126 <? n))%nat then String backslash ("u00" ++ hex2 false n)
  else String c "".

(** Every code point above ASCII is escaped as [\uhhhh], one above the
    basic plane as the two escapes of its surrogate pair. *)
Definition json_escape_item (i : item) : string :=
  match i with
  | Byte b => String b ""
  | Char n =>
      if (n <? 128)%N then json_escape_ascii (ascii_of_N n)
      else if (n <? 65536)%N then String backslash ("u" ++ hex_digits false 4 n)
      else
        let m := (n - 65536)%N in
        String backslash ("u" ++ hex_digits false 4 (55296 + m / 1024))
        ++ String backslash ("u" ++ hex_digits false 4 (56320 + m mod 1024))
  end.

Definition json_str (s : string) : string :=
  String dquote (concat_map json_escape_item (utf8_decode s)) ++ String dquote "".

Fixpoint json_dumps (v : value) : string :=
  match v with
  | VNone => "null"
  | VBool b => if b then "true" else "false"
  | VInt n => str_int n
  | VStr s => json_str s
  | VList items => "[" ++ join ", " (map json_dumps items) ++ "]"
  | VDict items =>
      "{" ++ join ", " (map (fun '(k, x) => json_str k ++ ": " ++ json_dumps x) items) ++ "}"
  end.

(** *** [urllib.parse.urlencode] *)

(** The characters [quote] never escapes: letters, digits and [_.-~]. *)
Definition always_safe (c : ascii) : bool :=
  let n := nat_of_ascii c in
  ((65 <=? n) && (n <=? 90) || (97 <=? n) && (n <=? 122) || (48 <=? n) && (n <=? 57)
   || (n =? 95) || (n =? 46) || (n =? 45) || (n =? 126))%nat.

Definition quote_plus_char (c : ascii) : string :=
  if always_safe c then String c ""
  else if (c =? " ")%char then "+"
  else "%" ++ hex2 true (nat_of_ascii c).

(** [quote_plus(s)]: a space becomes [+], every other unsafe byte [%XX]. *)
Definition quote_plus (s : string) : string := str_flat_map quote_plus_char s.

Definition urlencode_item (kv : string * value) : string :=
  quote_plus (fst kv) ++ "=" ++ quote_plus (str (snd kv)).

(** [urlencode(d)] with [doseq=False]: [k=v] pairs joined by [&]. *)
Definition urlencode (d : dict) : string := join "&" (map urlencode_item d).

(** [urllib.parse.unquote_plus], the decoder of [quote_plus]: [+] is a
    space and [%XX] the byte with that hexadecimal code. *)
Definition hex_value (c : ascii) : option nat :=
  let n := nat_of_ascii c in
  if ((48 <=? n) && (n <=? 57))%nat then Some (n - 48)
  else if ((65 <=? n) && (n <=? 70))%nat then Some (n - 55)
  else if ((97 <=? n) && (n <=? 102))%nat then Some (n - 87)
  else None.

Fixpoint unquote_plus (s : string) : string :=
  match s with
  | EmptyString => ""
  | String c r =>
      if (c =? "+")%char then String " " (unquote_plus r)
      else if (c =? "%")%char then
        match r with
        | String h1 (String h2 r') =>
            match hex_value h1, hex_value h2 with
            | Some a, Some b => String (ascii_of_nat (16 * a + b)) (unquote_plus r')
            | _, _ => String c (unquote_plus r)
            end
        | _ => String c (unquote_plus r)
        end
      else String c (unquote_plus r)
  end.

(** *** [base64] *)

Definition b64_alphabet : string :=
  "ABCDEFGHIJKLMNOPQRSTUVWXYZabcdefghijklmnopqrstuvwxyz0123456789+/".

Definition b64_pad : ascii := "="%char.

Definition b64_char (i : N) : ascii :=
  match get (N.to_nat i) b64_alphabet with
  | Some c => c
  | None => b64_pad
  end.

Fixpoint b64_index_from (i : N) (alphabet : string) (c : ascii) : option N :=
  match alphabet with
  | EmptyString => None
  | String a r => if (a =? c)%char then Some i else b64_index_from (N.succ i) r c
  end.

Definition b64_val (c : ascii) : option N := b64_index_from 0 b64_alphabet c.

(** [bytes(s, 'utf-8')]: a [str] is held as the bytes of its UTF-8 encoding. *)
Definition bytes_utf8 (s : string) : string := s.

(** [str(b, 'ascii')] for ASCII bytes. *)
Definition str_ascii (b : string) : string := b.

(** [base64.b64encode]: three bytes make four characters, [=] pads the end. *)
Fixpoint b64encode (bs : string) : string :=
  match bs with
  | EmptyString => ""
  | String a EmptyString =>
      let n := (N_of_ascii a * 65536)%N in
      String (b64_char (n / 262144))
        (String (b64_char ((n / 4096) mod 64))
           (String b64_pad (String b64_pad "")))
  | String a (String b EmptyString) =>
      let n := (N_of_ascii a * 65536 + N_of_ascii b * 256)%N in
      String (b64_char (n / 262144))
        (String (b64_char ((n / 4096) mod 64))
           (String (b64_char ((n / 64) mod 64)) (String b64_pad "")))
  | String a (String b (String c rest)) =>
      let n := (N_of_ascii a * 65536 + N_of_ascii b * 256 + N_of_ascii c)%N in
      String (b64_char (n / 262144))
        (String (b64_char ((n / 4096) mod 64))
           (String (b64_char ((n / 64) mod 64))
              (String (b64_char (n mod 64)) (b64encode rest))))
  end.

Definition is_empty (s : string) : bool :=
  match s with EmptyString => true | _ => false end.

(** [base64.b64decode] on padded Base64 text; [None] for anything else. *)
Fixpoint b64decode (s : string) : option string :=
  match s with
  | EmptyString => Some ""
  | String c1 (String c2 (String c3 (String c4 rest))) =>
      match b64_val c1, b64_val c2 with
      | Some v1, Some v2 =>
          match b64_val c3, b64_val c4 with
          | Some v3, Some v4 =>
              let n := (((v1 * 64 + v2) * 64 + v3) * 64 + v4)%N in
              match b64decode rest with
              | Some tail =>
                  Some (String (ascii_of_N (n / 65536))
                          (String (ascii_of_N ((n / 256) mod 256))
                             (String (ascii_of_N (n mod 256)) tail)))
              | None => None
              end
          | Some v3, None =>
              let n := (((v1 * 64 + v2) * 64 + v3) * 64)%N in
              if (c4 =? b64_pad)%char && is_empty rest
              then Some (String (ascii_of_N (n / 65536))
                           (String (ascii_of_N ((n / 256) mod 256)) ""))
              else None
          | None, _ =>
              let n := ((v1 * 64 + v2) * 4096)%N in
              if (c3 =? b64_pad)%char && (c4 =? b64_pad)%char && is_empty rest
              then Some (String (ascii_of_N (n / 65536)) "")
              else None
          end
      | _, _ => None
      end
  | _ => None
  end.

End Py.

(* ================================================================= *)
(** ** The HTTP session

    What the client sees of [requests]: a session sends a request and gets a
    response back.  The transport is a function from requests to the
    response objects the session call hands back; a computation records the requests it sends, in order, and
    either returns a value or raises.  A transport that fails to produce any
    response (connection errors, timeouts) is outside this model. *)

Module Http.
Import Py.

Inductive verb : Type := GET | POST | PUT | DELETE.

Record Request : Type := mkRequest {
  req_verb : verb;
  req_url : string;
  req_headers : list (string * string);
  req_body : option string
}.

(** The observations the client makes of a response: [status_code],
    [content] (the raw body), [text] (the body as text) and [json()], which
    is [None] here when the call raises because the body is not JSON. *)
Record Response : Type := mkResponse {
  status_code : Z;
  content : string;
  text : string;
  json : option value
}.

Inductive exn : Type :=
| ValueError (msg : string)
| Exception (msg : string)
| JSONDecodeError.

Inductive result (A : Type) : Type :=
| Returned (a : A)
| Raised (e : exn).
Arguments Returned {A} a.
Arguments Raised {A} e.

Definition transport : Type := Request -> Response.

Definition M (A : Type) : Type := transport -> list Request * result A.

Definition ret {A : Type} (a : A) : M A := fun _ => ([], Returned a).

Definition raise {A : Type} (e : exn) : M A := fun _ => ([], Raised e).

Definition bind {A B : Type} (m : M A) (k : A -> M B) : M B :=
  fun net =>
    match m net with
    | (sent, Returned a) => let (sent', r) := k a net in ((sent ++ sent')%list, r)
    | (sent, Raised e) => (sent, Raised e)
    end.

(** One network round trip. *)
Definition send (r : Request) : M Response := fun net => ([r], Returned (net r)).

Record Session : Type := mkSession { headers : list (string * string) }.

Definition session_get (s : Session) (url : string) : M Response :=
  send (mkRequest GET url (headers s) None).

Definition session_post (s : Session) (url : string) (data : option string) : M Response :=
  send (mkRequest POST url (headers s) data).

Definition session_put (s : Session) (url : string) (data : option string) : M Response :=
  send (mkRequest PUT url (headers s) data).

Definition session_delete (s : Session) (url : string) : M Response :=
  send (mkRequest DELETE url (headers s) None).

End Http.

Notation "x <- m ;; k" := (Http.bind m (fun x => k))
  (at level 61, m at next level, right associativity).

(* ================================================================= *)
(** ** The client *)

Module TestRailClient.
Import Py Http.

Record t : Type := mkClient {
  username : string;
  api_key : string;
  base_url : string;
  session : Session
}.

Definition API_PREFIX : string := "index.php?/api/v2/".

(** Only the headers the constructor sets are kept; the defaults of
    [requests.Session] play no part in what follows. *)
Definition __init__ (base_url username api_key : string) : t :=
  let base_url := if negb (endswith base_url "/") then base_url ++ "/" else base_url in
  let auth := strip (str_ascii (b64encode (bytes_utf8 (username ++ ":" ++ api_key)))) in
  {| username := username;
     api_key := api_key;
     base_url := base_url ++ API_PREFIX;
     session := {| headers := [("Authorization", "Basic " ++ auth);
                               ("Content-Type", "application/json")] |} |}.

Definition items (d : option dict) : dict :=
  match d with Some p => p | None => [] end.

(** The URL of a request: [self.base_url + uri], then the query block. *)
Definition request_url (self : t) (method uri : string) (params : option dict) : string :=
  let url := base_url self ++ uri in
  if truthy params && (upper method =? "GET") then
    let filtered_params := filter (fun kv => negb (is_None (snd kv))) (items params) in
    match filtered_params with
    | _ :: _ =>
        let query_string := urlencode filtered_params in
        let separator := if str_in "?" url then "&" else "?" in
        url ++ separator ++ query_string
    | [] => url
    end
  else url.

(** The body of a POST or PUT: [json.dumps(data) if data else None]. *)
Definition request_data (data : option dict) : option string :=
  if truthy data then Some (json_dumps (VDict (items data))) else None.

(** The message of the exception raised for a status code of 300 or more. *)
Definition error_message (response : Response) (url : string) (params : option dict) : string :=
  let error :=
    match json response with
    | Some v => v
    | None => VStr (text response)
    end in
  let debug_info := " [URL: " ++ url ++ "]" in
  let debug_info :=
    if truthy params
    then debug_info ++ " [Original params: " ++ str (VDict (items params)) ++ "]"
    else debug_info in
  "TestRail API returned HTTP " ++ str_int (status_code response) ++ ": "
    ++ str error ++ debug_info.

(** The dispatcher: build the URL, send by method, then raise on a status
    code of 300 or more and decode the body otherwise. *)
Definition _send_request (self : t) (method uri : string)
    (data params : option dict) : M value :=
  let url := request_url self method uri params in
  response <-
    (if upper method =? "GET" then session_get (session self) url
     else if upper method =? "POST" then session_post (session self) url (request_data data)
     else if upper method =? "PUT" then session_put (session self) url (request_data data)
     else if upper method =? "DELETE" then session_delete (session self) url
     else raise (ValueError ("Unsupported HTTP method: " ++ method))) ;;
  if (status_code response >=? 300)%Z then
    raise (Exception (error_message response url params))
  else if is_empty (content response) then ret (VDict [])
  else
    match json response with
    | Some v => ret v
    | None => raise JSONDecodeError
    end.

(** *** Endpoint wrappers *)

Section Wrappers.
Variable self : t.

(* Cases API *)
Definition get_case (case_id : Z) : M value :=
  _send_request self "GET" ("get_case/" ++ str_int case_id) None None.

Definition get_cases (project_id : Z) (suite_id : option Z) : M value :=
  let params : dict := [] in
  let params :=
    match suite_id with
    | Some s => dict_set params "suite_id" (VInt s)
    | None => params
    end in
  _send_request self "GET" ("get_cases/" ++ str_int project_id) None (Some params).

Definition add_case (section_id : Z) (data : dict) : M value :=
  _send_request self "POST" ("add_case/" ++ str_int section_id) (Some data) None.

Definition update_case (case_id : Z) (data : dict) : M value :=
  _send_request self "POST" ("update_case/" ++ str_int case_id) (Some data) None.

Definition delete_case (case_id : Z) : M value :=
  _send_request self "POST" ("delete_case/" ++ str_int case_id) None None.

(* Projects API *)
Definition get_project (project_id : Z) : M value :=
  _send_request self "GET" ("get_project/" ++ str_int project_id) None None.

Definition get_projects : M value :=
  _send_request self "GET" "get_projects" None None.

Definition add_project (data : dict) : M value :=
  _send_request self "POST" "add_project" (Some data) None.

Definition update_project (project_id : Z) (data : dict) : M value :=
  _send_request self "POST" ("update_project/" ++ str_int project_id) (Some data) None.

Definition delete_project (project_id : Z) : M value :=
  _send_request self "POST" ("delete_project/" ++ str_int project_id) None None.

(* Runs API *)
Definition get_run (run_id : Z) : M value :=
  _send_request self "GET" ("get_run/" ++ str_int run_id) None None.

Definition get_runs (project_id : Z) : M value :=
  _send_request self "GET" ("get_runs/" ++ str_int project_id) None None.

Definition add_run (project_id : Z) (data : dict) : M value :=
  _send_request self "POST" ("add_run/" ++ str_int project_id) (Some data) None.

Definition update_run (run_id : Z) (data : dict) : M value :=
  _send_request self "POST" ("update_run/" ++ str_int run_id) (Some data) None.

Definition close_run (run_id : Z) : M value :=
  _send_request self "POST" ("close_run/" ++ str_int run_id) None None.

Definition delete_run (run_id : Z) : M value :=
  _send_request self "POST" ("delete_run/" ++ str_int run_id) None None.

(* Results API *)
Definition get_results (test_id : Z) : M value :=
  _send_request self "GET" ("get_results/" ++ str_int test_id) None None.

Definition add_result (test_id : Z) (data : dict) : M value :=
  _send_request self "POST" ("add_result/" ++ str_int test_id) (Some data) None.

(* Datasets API *)
Definition get_dataset (dataset_id : Z) : M value :=
  _send_request self "GET" ("get_dataset/" ++ str_int dataset_id) None None.

Definition get_datasets (project_id : Z) : M value :=
  _send_request self "GET" ("get_datasets/" ++ str_int project_id) None None.

Definition add_dataset (project_id : Z) (data : dict) : M value :=
  _send_request self "POST" ("add_dataset/" ++ str_int project_id) (Some data) None.

Definition update_dataset (dataset_id : Z) (data : dict) : M value :=
  _send_request self "POST" ("update_dataset/" ++ str_int dataset_id) (Some data) None.

Definition delete_dataset (dataset_id : Z) : M value :=
  _send_request self "POST" ("delete_dataset/" ++ str_int dataset_id) None None.

(* Suites API *)
Definition get_suite (suite_id : Z) : M value :=
  _send_request self "GET" ("get_suite/" ++ str_int suite_id) None None.

Definition get_suites (project_id : Z) : M value :=
  _send_request self "GET" ("get_suites/" ++ str_int project_id) None None.

(* Sections API *)
Definition get_section (section_id : Z) : M value :=
  _send_request self "GET" ("get_section/" ++ str_int section_id) None None.

(** [params or {}] is the caller's own mapping when that is non-empty, so in
    Python the assignment below also updates the caller's object; the mapping
    that is dispatched is the one computed here either way. *)
Definition get_sections (project_id : Z) (suite_id : option Z)
    (params : option dict) : M value :=
  let query_params : dict := if truthy params then items params else [] in
  let query_params :=
    match suite_id with
    | Some s => dict_set query_params "suite_id" (VInt s)
    | None => query_params
    end in
  _send_request self "GET" ("get_sections/" ++ str_int project_id) None (Some query_params).

Definition add_section (project_id : Z) (data : dict) : M value :=
  _send_request self "POST" ("add_section/" ++ str_int project_id) (Some data) None.

Definition update_section (section_id : Z) (data : dict) : M value :=
  _send_request self "POST" ("update_section/" ++ str_int section_id) (Some data) None.

Definition delete_section (section_id : Z) (soft : bool) : M value :=
  let url := "delete_section/" ++ str_int section_id in
  let url := if soft then "delete_section/" ++ str_int section_id ++ "?soft=1" else url in
  _send_request self "POST" url None None.

Definition move_section (section_id : Z) (data : dict) : M value :=
  _send_request self "POST" ("move_section/" ++ str_int section_id) (Some data) None.

End Wrappers.

End TestRailClient.

(* ================================================================= *)
(** ** Notions used in the statements *)

Import Py Http TestRailClient.

(** [sub] occurs somewhere in [s]; [str_in] decides it. *)
Definition occurs_in (sub s : string) : Prop :=
  exists p q, s = p ++ sub ++ q.

(** The number of [/] characters a string ends with. *)
Fixpoint leading_slashes (l : list ascii) : nat :=
  match l with
  | c :: r => if (c =? "/")%char then S (leading_slashes r) else 0
  | [] => 0
  end.

Definition trailing_slashes (s : string) : nat :=
  leading_slashes (rev (list_ascii_of_string s)).

(** The query block the dispatcher appends for the entries it keeps. *)
Definition kept (params : dict) : dict :=
  filter (fun kv => negb (is_None (snd kv))) params.

Definition query_block (sep : string) (entries : dict) : string :=
  match entries with
  | [] => ""
  | _ :: _ => sep ++ urlencode entries
  end.

Fixpoint header_get (name : string) (hs : list (string * string)) : option string :=
  match hs with
  | [] => None
  | (n, v) :: rest => if n =? name then Some v else header_get name rest
  end.

(** The error payload of a failed response: decoded body, else raw text. *)
Definition error_payload (response : Response) : value :=
  match json response with
  | Some v => v
  | None => VStr (text response)
  end.

(** The HTTP verb the dispatcher's chain of comparisons selects. *)
Definition verb_of (method : string) : option verb :=
  if upper method =? "GET" then Some GET
  else if upper method =? "POST" then Some POST
  else if upper method =? "PUT" then Some PUT
  else if upper method =? "DELETE" then Some DELETE
  else None.

(** JSON text is full of double quotes; a literal is written with single
    quotes and [json_text] turns each of them into a double quote. *)
Fixpoint json_text (s : string) : string :=
  match s with
  | EmptyString => ""
  | String c r => String (if (c =? squote)%char then dquote else c) (json_text r)
  end.

(** A request body with an accent, an escaped quote and nested values. *)
Definition sample_data : dict :=
  [("title", VStr ("Café " ++ String dquote "x" ++ String dquote ""));
   ("ids", VList [VInt 1; VInt 2]);
   ("ok", VBool true);
   ("ref", VNone)].

(** Sample client and servers for the concrete cases. *)
Definition sample_client : t := __init__ "https://example.testrail.io" "alice" "k1".

Definition server_ok : transport := fun _ => mkResponse 200 "" "" None.

Definition server_projects : transport :=
  fun _ =>
    let v := VList [VDict [("id", VInt 1)]] in
    mkResponse 200 (json_dumps v) (json_dumps v) (Some v).

Definition server_html : transport :=
  fun _ => mkResponse 200 "<html></html>" "<html></html>" None.

Definition server_not_found : transport :=
  fun _ =>
    let body := json_dumps (VDict [("error", VStr "not found")]) in
    mkResponse 404 body body (Some (VDict [("error", VStr "not found")])).

(** The name the dispatcher compares an upper-cased method with. *)
Definition verb_name (v : verb) : string :=
  match v with
  | GET => "GET"
  | POST => "POST"
  | PUT => "PUT"
  | DELETE => "DELETE"
  end.

(** The number of times a character occurs in a string. *)
Fixpoint count_char (c : ascii) (s : string) : nat :=
  match s with
  | EmptyString => 0
  | String x r => (if (x =? c)%char then 1 else 0) + count_char c r
  end.

(** The value of the [Authorization] header of a client's session. *)
Definition authorization (self : t) : option string :=
  header_get "Authorization" (headers (session self)).

(** A call of one public method of the client, with its arguments. *)
Inductive call : Type :=
| Call_get_case (case_id : Z)
| Call_get_cases (project_id : Z) (suite_id : option Z)
| Call_add_case (section_id : Z) (data : dict)
| Call_update_case (case_id : Z) (data : dict)
| Call_delete_case (case_id : Z)
| Call_get_project (project_id : Z)
| Call_get_projects
| Call_add_project (data : dict)
| Call_update_project (project_id : Z) (data : dict)
| Call_delete_project (project_id : Z)
| Call_get_run (run_id : Z)
| Call_get_runs (project_id : Z)
| Call_add_run (project_id : Z) (data : dict)
| Call_update_run (run_id : Z) (data : dict)
| Call_close_run (run_id : Z)
| Call_delete_run (run_id : Z)
| Call_get_results (test_id : Z)
| Call_add_result (test_id : Z) (data : dict)
| Call_get_dataset (dataset_id : Z)
| Call_get_datasets (project_id : Z)
| Call_add_dataset (project_id : Z) (data : dict)
| Call_update_dataset (dataset_id : Z) (data : dict)
| Call_delete_dataset (dataset_id : Z)
| Call_get_suite (suite_id : Z)
| Call_get_suites (project_id : Z)
| Call_get_section (section_id : Z)
| Call_get_sections (project_id : Z) (suite_id : option Z) (params : option dict)
| Call_add_section (project_id : Z) (data : dict)
| Call_update_section (section_id : Z) (data : dict)
| Call_delete_section (section_id : Z) (soft : bool)
| Call_move_section (section_id : Z) (data : dict).

Definition invoke (self : t) (c : call) : M value :=
  match c with
  | Call_get_case i => get_case self i
  | Call_get_cases i s => get_cases self i s
  | Call_add_case i d => add_case self i d
  | Call_update_case i d => update_case self i d
  | Call_delete_case i => delete_case self i
  | Call_get_project i => get_project self i
  | Call_get_projects => get_projects self
  | Call_add_project d => add_project self d
  | Call_update_project i d => update_project self i d
  | Call_delete_project i => delete_project self i
  | Call_get_run i => get_run self i
  | Call_get_runs i => get_runs self i
  | Call_add_run i d => add_run self i d
  | Call_update_run i d => update_run self i d
  | Call_close_run i => close_run self i
  | Call_delete_run i => delete_run self i
  | Call_get_results i => get_results self i
  | Call_add_result i d => add_result self i d
  | Call_get_dataset i => get_dataset self i
  | Call_get_datasets i => get_datasets self i
  | Call_add_dataset i d => add_dataset self i d
  | Call_update_dataset i d => update_dataset self i d
  | Call_delete_dataset i => delete_dataset self i
  | Call_get_suite i => get_suite self i
  | Call_get_suites i => get_suites self i
  | Call_get_section i => get_section self i
  | Call_get_sections i s p => get_sections self i s p
  | Call_add_section i d => add_section self i d
  | Call_update_section i d => update_section self i d
  | Call_delete_section i soft => delete_section self i soft
  | Call_move_section i d => move_section self i d
  end.

(** The [data] argument of a call, for the methods that have one. *)
Definition call_data (c : call) : option dict :=
  match c with
  | Call_add_case _ d | Call_update_case _ d
  | Call_add_project d | Call_update_project _ d
  | Call_add_run _ d | Call_update_run _ d
  | Call_add_result _ d
  | Call_add_dataset _ d | Call_update_dataset _ d
  | Call_add_section _ d | Call_update_section _ d | Call_move_section _ d => Some d
  | _ => None
  end.

(* ================================================================= *)
(** ** Facts about strings *)

Section StringFacts.

Lemma append_nil_r (s : string) : s ++ "" = s.
Proof. induction s as [|c s IH]; simpl; [reflexivity | now rewrite IH]. Qed.

Lemma append_assoc (a b c : string) : (a ++ b) ++ c = a ++ (b ++ c).
Proof. induction a as [|x a IH]; simpl; [reflexivity | now rewrite IH]. Qed.

Lemma list_of_append (a b : string) :
  list_ascii_of_string (a ++ b) = (list_ascii_of_string a ++ list_ascii_of_string b)%list.
Proof. induction a as [|x a IH]; simpl; [reflexivity | now rewrite IH]. Qed.

Lemma list_of_string_inj (a b : string) :
  list_ascii_of_string a = list_ascii_of_string b -> a = b.
Proof.
  intros H.
  rewrite <- (string_of_list_ascii_of_string a), <- (string_of_list_ascii_of_string b).
  now rewrite H.
Qed.

Lemma append_inv_tail (a b c : string) : a ++ c = b ++ c -> a = b.
Proof.
  intros H. apply list_of_string_inj.
  apply (f_equal list_ascii_of_string) in H.
  rewrite !list_of_append in H.
  now apply app_inv_tail in H.
Qed.

Lemma append_inv_head (a b c : string) : a ++ b = a ++ c -> b = c.
Proof. induction a as [|x a IH]; simpl; intros H; [assumption | injection H; auto]. Qed.

Lemma prefix_append (a b : string) : prefix a (a ++ b) = true.
Proof.
  induction a as [|x a IH]; simpl.
  - now destruct b.
  - destruct (ascii_dec x x) as [_|N]; [assumption | now elim N].
Qed.

Lemma prefix_inv (a s : string) : prefix a s = true -> exists r, s = a ++ r.
Proof.
  revert s. induction a as [|x a IH]; intros s H.
  - now exists s.
  - destruct s as [|y s]; simpl in H; [discriminate|].
    destruct (ascii_dec x y) as [->|_]; [|discriminate].
    destruct (IH _ H) as [r ->]. now exists r.
Qed.

Lemma str_in_spec (sub s : string) : str_in sub s = true <-> occurs_in sub s.
Proof.
  split.
  - induction s as [|c s IH]; cbn [str_in]; intros H.
    + rewrite orb_false_r in H. destruct (prefix_inv _ _ H) as [r Hr].
      exists "", r. exact Hr.
    + apply orb_true_iff in H. destruct H as [H|H].
      * destruct (prefix_inv _ _ H) as [r Hr]. exists "", r. exact Hr.
      * destruct (IH H) as (p & q & ->). now exists (String c p), q.
  - intros (p & q & ->). induction p as [|c p IH].
    + change ("" ++ sub ++ q) with (sub ++ q).
      destruct (sub ++ q) eqn:E; cbn [str_in]; rewrite <- E, prefix_append; reflexivity.
    + change (String c p ++ sub ++ q) with (String c (p ++ sub ++ q)).
      cbn [str_in]. rewrite IH. apply orb_true_r.
Qed.

Lemma occurs_in_refl (s : string) : occurs_in s s.
Proof. exists "", "". simpl. now rewrite append_nil_r. Qed.

Lemma occurs_in_app_l (sub a b : string) : occurs_in sub a -> occurs_in sub (a ++ b).
Proof.
  intros (p & q & ->). exists p, (q ++ b). now rewrite !append_assoc.
Qed.

Lemma occurs_in_app_r (sub a b : string) : occurs_in sub b -> occurs_in sub (a ++ b).
Proof.
  intros (p & q & ->). exists (a ++ p), q. now rewrite !append_assoc.
Qed.

End StringFacts.

Create HintDb occurs.
#[local] Hint Resolve occurs_in_refl occurs_in_app_l occurs_in_app_r : occurs.

(* ================================================================= *)
(** ** One run of the dispatcher *)

Section Dispatch.
Variables (self : t) (method uri : string) (data params : option dict).
Variable net : transport.

Let url := request_url self method uri params.

(** A supported method sends exactly one request and then looks at the
    response. *)
Lemma run_supported (v : verb) :
  verb_of method = Some v ->
  let req :=
    mkRequest v url (headers (session self))
      match v with POST | PUT => request_data data | GET | DELETE => None end in
  _send_request self method uri data params net =
    ([req],
     if (status_code (net req) >=? 300)%Z
     then Raised (Exception (error_message (net req) url params))
     else if is_empty (content (net req)) then Returned (VDict [])
     else match json (net req) with
          | Some x => Returned x
          | None => Raised JSONDecodeError
          end).
Proof.
  unfold verb_of, _send_request, bind. fold url.
  destruct (upper method =? "GET");
    [|destruct (upper method =? "POST");
      [|destruct (upper method =? "PUT");
        [|destruct (upper method =? "DELETE")]]];
    intros E; inversion E; subst v; cbn;
    match goal with
    | |- context [net ?r] => destruct (status_code (net r) >=? 300)%Z;
        [reflexivity | destruct (is_empty (content (net r)));
                       [reflexivity | destruct (json (net r)); reflexivity]]
    end.
Qed.

(** Any other method raises before anything is sent. *)
Lemma run_unsupported :
  verb_of method = None ->
  _send_request self method uri data params net =
    ([], Raised (ValueError ("Unsupported HTTP method: " ++ method))).
Proof.
  unfold verb_of, _send_request, bind.
  destruct (upper method =? "GET"); [discriminate|].
  destruct (upper method =? "POST"); [discriminate|].
  destruct (upper method =? "PUT"); [discriminate|].
  destruct (upper method =? "DELETE"); [discriminate|].
  reflexivity.
Qed.

End Dispatch.

Lemma verb_of_GET (method : string) : upper method = "GET" -> verb_of method = Some GET.
Proof. unfold verb_of. now intros ->. Qed.

Lemma verb_of_None (method : string) :
  upper method <> "GET" -> upper method <> "POST" ->
  upper method <> "PUT" -> upper method <> "DELETE" ->
  verb_of method = None.
Proof.
  unfold verb_of. intros G P U D.
  apply String.eqb_neq in G, P, U, D. now rewrite G, P, U, D.
Qed.

(* ================================================================= *)
(** ** Unsupported methods, request bodies and successful responses *)

(** C5: a method that, upper-cased, is none of GET, POST, PUT and DELETE
    makes [_send_request] raise the invalid-argument error ([ValueError]),
    and no request is sent. *)
Theorem unsupported_method_raises
    (self : t) (method uri : string) (data params : option dict) (net : transport) :
  upper method <> "GET" -> upper method <> "POST" ->
  upper method <> "PUT" -> upper method <> "DELETE" ->
  _send_request self method uri data params net =
    ([], Raised (ValueError ("Unsupported HTTP method: " ++ method))).
Proof.
  intros G P U D. apply run_unsupported. now apply verb_of_None.
Qed.

Lemma unsupported_method_raises_witness :
  (upper "PATCH" <> "GET" /\ upper "PATCH" <> "POST" /\
   upper "PATCH" <> "PUT" /\ upper "PATCH" <> "DELETE") /\
  _send_request sample_client "PATCH" "get_case/1" None None server_ok =
    ([], Raised (ValueError "Unsupported HTTP method: PATCH")).
Proof.
  split.
  - repeat split; intros H; vm_compute in H; discriminate H.
  - apply (unsupported_method_raises sample_client "PATCH" "get_case/1" None None server_ok);
      intros H; vm_compute in H; discriminate H.
Defined.

(** [upper] is that of [str]: the long s and the st ligature upper-case to
    ASCII letters, so these spellings are POST and a request is sent, while
    an accented letter keeps a method unsupported. *)
Lemma unicode_spellings_of_post :
  upper "poſt" = "POST" /\
  upper "POﬆ" = "POST" /\
  upper "straße" = "STRASSE" /\
  map req_verb (fst (_send_request sample_client "poſt" "add_run/1" None None server_ok)) =
    [POST] /\
  _send_request sample_client "pöst" "add_run/1" None None server_ok =
    ([], Raised (ValueError "Unsupported HTTP method: pöst")).
Proof. repeat split; vm_compute; reflexivity. Qed.

(** C9: a dispatch with a supported method sends one request; for GET and
    DELETE it has no body; for POST and PUT its body is the JSON
    serialization of [data] exactly when [data] is neither [None] nor an
    empty mapping, and it has no body otherwise.  The serialization is that
    of [json.dumps]: for the sample data it is the text shown. *)
Theorem request_body_by_method :
  (forall (self : t) (method uri : string) (data params : option dict)
          (net : transport) (v : verb),
     verb_of method = Some v ->
     exists req,
       fst (_send_request self method uri data params net) = [req] /\
       req_verb req = v /\
       req_body req =
         match v with
         | GET | DELETE => None
         | POST | PUT =>
             match data with
             | Some (e :: d) => Some (json_dumps (VDict (e :: d)))
             | Some [] | None => None
             end
         end) /\
  (forall (method : string) (net : transport),
     method = "POST" \/ method = "PUT" ->
     map req_body
       (fst (_send_request sample_client method "add_case/4" (Some sample_data) None net)) =
       [Some (json_text
          "{'title': 'Caf\u00e9 \'x\'', 'ids': [1, 2], 'ok': true, 'ref': null}")] /\
     map req_body
       (fst (_send_request sample_client method "add_case/4" (Some []) None net)) =
       [None]) /\
  (forall (method : string) (net : transport),
     method = "GET" \/ method = "DELETE" ->
     map req_body
       (fst (_send_request sample_client method "get_case/4" (Some sample_data) None net)) =
       [None]).
Proof.
  split; [|split].
  - intros self method uri data params net v Hv.
    rewrite (run_supported self method uri data params net v Hv).
    eexists. split; [reflexivity|]. split; [reflexivity|].
    destruct v; cbn; try reflexivity; destruct data as [[|e d]|]; reflexivity.
  - intros method net [-> | ->]; split;
      match goal with
      | |- context [_send_request ?c ?m ?u ?d ?p net] =>
          rewrite (run_supported c m u d p net _ eq_refl)
      end; vm_compute; reflexivity.
  - intros method net [-> | ->];
      match goal with
      | |- context [_send_request ?c ?m ?u ?d ?p net] =>
          rewrite (run_supported c m u d p net _ eq_refl)
      end; reflexivity.
Qed.

Lemma request_body_by_method_witness :
  verb_of "post" = Some POST /\
  (exists req,
     fst (_send_request sample_client "post" "add_case/4"
            (Some [("title", VStr "t")]) None server_ok) = [req] /\
     req_verb req = POST /\
     req_body req = Some (json_text "{'title': 't'}")) /\
  map req_body
    (fst (_send_request sample_client "PUT" "add_case/4" (Some sample_data) None server_ok)) =
    [Some (json_text
       "{'title': 'Caf\u00e9 \'x\'', 'ids': [1, 2], 'ok': true, 'ref': null}")].
Proof.
  split; [reflexivity|]. split.
  - apply (proj1 request_body_by_method sample_client "post" "add_case/4"
             (Some [("title", VStr "t")]) None server_ok POST).
    reflexivity.
  - apply (proj1 (proj2 request_body_by_method) "PUT" server_ok). now right.
Defined.

(** C6 (amended): when the response to a dispatch has a status code below
    300, [_send_request] returns the empty mapping for a body of length zero
    and the JSON-decoded body for a body that is JSON; for any other body
    nothing is returned: the decoder's error is raised. *)
Theorem success_returns_decoded_body
    (self : t) (method uri : string) (data params : option dict) (net : transport)
    (v : verb) :
  verb_of method = Some v ->
  exists req,
    fst (_send_request self method uri data params net) = [req] /\
    ((status_code (net req) < 300)%Z ->
     (String.length (content (net req)) = 0 ->
      snd (_send_request self method uri data params net) = Returned (VDict [])) /\
     (forall body,
        String.length (content (net req)) <> 0 ->
        json (net req) = Some body ->
        snd (_send_request self method uri data params net) = Returned body) /\
     (String.length (content (net req)) <> 0 ->
      json (net req) = None ->
      snd (_send_request self method uri data params net) = Raised JSONDecodeError)).
Proof.
  intros Hv. rewrite (run_supported self method uri data params net v Hv).
  eexists. split; [reflexivity|]. cbn [snd].
  set (r := net _). intros Hs.
  assert (E : (status_code r >=? 300)%Z = false) by lia. rewrite E.
  split; [|split].
  - intros L. destruct (content r); [reflexivity | discriminate L].
  - intros body L J. destruct (content r); [now elim L|]. cbn. now rewrite J.
  - intros L J. destruct (content r); [now elim L|]. cbn. now rewrite J.
Qed.

Lemma success_returns_decoded_body_witness :
  verb_of "GET" = Some GET /\
  snd (_send_request sample_client "GET" "get_projects" None None server_ok) =
    Returned (VDict []) /\
  snd (_send_request sample_client "GET" "get_projects" None None server_projects) =
    Returned (VList [VDict [("id", VInt 1)]]) /\
  snd (_send_request sample_client "GET" "get_projects" None None server_html) =
    Raised JSONDecodeError.
Proof.
  split; [reflexivity|]. split; [|split].
  - destruct (success_returns_decoded_body sample_client "GET" "get_projects"
                None None server_ok GET eq_refl) as [req [_ H]].
    assert (Hs : (status_code (server_ok req) < 300)%Z) by (vm_compute; reflexivity).
    destruct (H Hs) as [He _]. apply He. reflexivity.
  - destruct (success_returns_decoded_body sample_client "GET" "get_projects"
                None None server_projects GET eq_refl) as [req [_ H]].
    assert (Hs : (status_code (server_projects req) < 300)%Z) by (vm_compute; reflexivity).
    destruct (H Hs) as [_ [Hb _]]. apply Hb; [vm_compute; discriminate | reflexivity].
  - destruct (success_returns_decoded_body sample_client "GET" "get_projects"
                None None server_html GET eq_refl) as [req [_ H]].
    assert (Hs : (status_code (server_html req) < 300)%Z) by (vm_compute; reflexivity).
    destruct (H Hs) as [_ [_ Hn]]. apply Hn; [vm_compute; discriminate | reflexivity].
Defined.

(** C6, as stated, fails: a response with status 200 whose body is not JSON
    returns nothing; the decoder's error is raised. *)
Lemma success_with_undecodable_body :
  (status_code (server_html (mkRequest GET "" [] None)) < 300)%Z /\
  content (server_html (mkRequest GET "" [] None)) = "<html></html>" /\
  _send_request sample_client "GET" "get_projects" None None server_html =
    ([mkRequest GET "https://example.testrail.io/index.php?/api/v2/get_projects"
        [("Authorization", "Basic YWxpY2U6azE="); ("Content-Type", "application/json")]
        None],
     Raised JSONDecodeError) /\
  (forall body,
     snd (_send_request sample_client "GET" "get_projects" None None server_html)
     <> Returned body).
Proof.
  split; [reflexivity|]. split; [reflexivity|]. split; [reflexivity|].
  intros body H. discriminate H.
Qed.

(* ================================================================= *)
(** ** The request URL *)

Lemma kept_spec (p : dict) (k : string) (v : value) :
  In (k, v) (kept p) <-> In (k, v) p /\ v <> VNone.
Proof.
  unfold kept. rewrite filter_In. cbn [snd].
  split; intros [H N]; split; try assumption.
  - intros ->. discriminate N.
  - destruct v; try reflexivity. now elim N.
Qed.

(** With one entry per key, a key whose value is [None] is not kept. *)
Lemma dropped_key_not_kept (p : dict) (k : string) :
  NoDup (map fst p) -> In (k, VNone) p -> ~ In k (map fst (kept p)).
Proof.
  induction p as [|[k0 v0] p IH]; [intros _ []|].
  cbn [map fst]. intros D H. inversion D as [|? ? N D']; subst.
  assert (S : forall x, In x (map fst (kept p)) -> In x (map fst p)).
  { intros x Hx. apply in_map_iff in Hx. destruct Hx as ([k1 v1] & <- & Hk).
    apply kept_spec in Hk. apply in_map_iff. exists (k1, v1). tauto. }
  destruct H as [E|H].
  - injection E as -> ->. cbn. intros Hk. apply N, S, Hk.
  - unfold kept. cbn [filter snd]. fold (kept p).
    assert (K : k0 <> k).
    { intros ->. apply N. apply in_map_iff. now exists (k, VNone). }
    destruct (negb (is_None v0)); cbn [map fst]; [intros [E|Hk]|]; auto.
    now apply (IH D' H).
Qed.

Lemma occurs_in_join (sep x : string) (l : list string) :
  In x l -> occurs_in x (join sep l).
Proof.
  induction l as [|y l IH]; [intros []|].
  intros [->|H].
  - destruct l; cbn [join]; auto with occurs.
  - specialize (IH H). destruct l as [|z l]; [destruct H|].
    cbn [join] in *. auto with occurs.
Qed.

Lemma occurs_in_query_block (sep : string) (entries : dict) (kv : string * value) :
  In kv entries -> occurs_in (urlencode_item kv) (query_block sep entries).
Proof.
  intros H. destruct entries as [|e r]; [destruct H|].
  unfold query_block, urlencode. apply occurs_in_app_r, occurs_in_join.
  now apply in_map.
Qed.

(** For GET the URL is the base, the suffix and the block of kept entries;
    the separator depends on whether base plus suffix has a [?]. *)
Lemma request_url_GET (self : t) (method uri : string) (params : option dict) :
  upper method = "GET" ->
  request_url self method uri params =
    base_url self ++ uri ++
    query_block (if str_in "?" (base_url self ++ uri) then "&" else "?")
                (kept (items params)).
Proof.
  intros G. unfold request_url. rewrite G. cbn [String.eqb Ascii.eqb Bool.eqb].
  rewrite andb_true_r.
  destruct params as [[|e p]|]; cbn [truthy items].
  - cbn [kept filter query_block]. now rewrite append_nil_r.
  - change (filter _ (e :: p)) with (kept (e :: p)).
    destruct (kept (e :: p)); cbn [query_block];
      [now rewrite append_nil_r | now rewrite !append_assoc].
  - cbn [kept filter query_block]. now rewrite append_nil_r.
Qed.

(** Every URL of a constructed client has a [?]: it is in the fixed prefix. *)
Lemma constructed_url_has_question_mark (base username key uri : string) :
  str_in "?" (base_url (__init__ base username key) ++ uri) = true.
Proof.
  apply str_in_spec. cbn [__init__ base_url]. unfold API_PREFIX.
  set (b := if negb (endswith base "/") then base ++ "/" else base).
  exists (b ++ "index.php"), ("/api/v2/" ++ uri).
  now rewrite !append_assoc.
Qed.

(** C10: a GET dispatch whose params mapping is empty, or has only [None]
    values, requests exactly the normalized base followed by the URI suffix;
    in particular [get_cases] without a suite requests
    base + [get_cases/{project_id}]. *)
Theorem empty_params_leave_url_bare (self : t) :
  (forall (method uri : string) (data params : option dict) (net : transport),
     upper method = "GET" ->
     kept (items params) = [] ->
     exists req,
       fst (_send_request self method uri data params net) = [req] /\
       req_verb req = GET /\
       req_url req = base_url self ++ uri) /\
  (forall (project_id : Z) (net : transport),
     exists req,
       fst (get_cases self project_id None net) = [req] /\
       req_verb req = GET /\
       req_url req = base_url self ++ "get_cases/" ++ str_int project_id).
Proof.
  assert (H : forall method uri data params net,
             upper method = "GET" -> kept (items params) = [] ->
             exists req,
               fst (_send_request self method uri data params net) = [req] /\
               req_verb req = GET /\ req_url req = base_url self ++ uri).
  { intros method uri data params net G K.
    rewrite (run_supported self method uri data params net GET (verb_of_GET _ G)).
    eexists. split; [reflexivity|]. split; [reflexivity|].
    cbn [req_url]. rewrite (request_url_GET _ _ _ _ G), K.
    cbn [query_block]. now rewrite append_nil_r. }
  split; [exact H|].
  intros project_id net. unfold get_cases. now apply H.
Qed.

Lemma empty_params_leave_url_bare_witness :
  (upper "GET" = "GET" /\
   kept (items (Some [("suite_id", VNone)])) = []) /\
  exists req,
    fst (_send_request sample_client "GET" "get_cases/3" None
           (Some [("suite_id", VNone)]) server_ok) = [req] /\
    req_verb req = GET /\
    req_url req = "https://example.testrail.io/index.php?/api/v2/get_cases/3".
Proof.
  split; [split; reflexivity|].
  exact (proj1 (empty_params_leave_url_bare sample_client)
           "GET" "get_cases/3" None (Some [("suite_id", VNone)]) server_ok
           eq_refl eq_refl).
Defined.

(** [unquote_plus] undoes [quote_plus]: the encoding loses nothing. *)
Lemma unquote_quote_plus (s : string) : unquote_plus (quote_plus s) = s.
Proof.
  unfold quote_plus. induction s as [|c s IH]; [reflexivity|].
  cbn [str_flat_map].
  transitivity (String c (unquote_plus (str_flat_map quote_plus_char s)));
    [|now rewrite IH].
  generalize (str_flat_map quote_plus_char s). intros t.
  destruct c as [[|] [|] [|] [|] [|] [|] [|] [|]]; reflexivity.
Qed.

(** C4: in a GET dispatch with a params mapping, the entries whose value is
    [None] are dropped before encoding: the block appended to the URL is the
    form-url-encoding of exactly the remaining entries, each of which occurs
    in it as [key=value] with both sides escaped by [quote_plus] (which
    [unquote_plus] undoes), and the key of a dropped entry is not among the
    keys encoded.  For [{"suite_id": None, "x": 5}] the URL has [x=5] and
    does not have [suite_id]; a value with a space, [&], [=], [/] and an
    accent is escaped as shown. *)
Theorem none_params_dropped :
  (forall (self : t) (method uri : string) (data : option dict) (p : dict)
          (net : transport),
     upper method = "GET" ->
     exists req,
       fst (_send_request self method uri data (Some p) net) = [req] /\
       req_url req =
         base_url self ++ uri ++
         query_block (if str_in "?" (base_url self ++ uri) then "&" else "?") (kept p) /\
       (forall k v, In (k, v) (kept p) <-> In (k, v) p /\ v <> VNone) /\
       (forall k v sep, In (k, v) (kept p) ->
          occurs_in (quote_plus k ++ "=" ++ quote_plus (str v))
                    (query_block sep (kept p))) /\
       (forall k, NoDup (map fst p) -> In (k, VNone) p -> ~ In k (map fst (kept p)))) /\
  (forall s : string, unquote_plus (quote_plus s) = s) /\
  (forall net : transport,
     exists req,
       fst (_send_request sample_client "GET" "get_cases/3" None
              (Some [("suite_id", VNone); ("x", VInt 5)]) net) = [req] /\
       req_url req = "https://example.testrail.io/index.php?/api/v2/get_cases/3&x=5" /\
       str_in "x=5" (req_url req) = true /\
       str_in "suite_id" (req_url req) = false) /\
  (forall net : transport,
     map req_url
       (fst (_send_request sample_client "GET" "get_cases/3" None
               (Some [("suite_id", VNone); ("name", VStr "a b&c=d/é");
                      ("flag", VBool true); ("x", VInt 5)]) net)) =
     ["https://example.testrail.io/index.php?/api/v2/get_cases/3&name=a+b%26c%3Dd%2F%C3%A9&flag=True&x=5"]).
Proof.
  split; [|split; [exact unquote_quote_plus | split]].
  - intros self method uri data p net G.
    rewrite (run_supported self method uri data (Some p) net GET (verb_of_GET _ G)).
    eexists. split; [reflexivity|]. cbn [req_url].
    split; [exact (request_url_GET self method uri (Some p) G)|].
    split; [intros k v; apply kept_spec|].
    split; [intros k v sep H; exact (occurs_in_query_block sep (kept p) (k, v) H)|].
    intros k. apply dropped_key_not_kept.
  - intros net.
    rewrite (run_supported sample_client "GET" "get_cases/3" None _ net GET eq_refl).
    eexists. split; [reflexivity|]. repeat split; vm_compute; reflexivity.
  - intros net.
    rewrite (run_supported sample_client "GET" "get_cases/3" None _ net GET eq_refl).
    vm_compute. reflexivity.
Qed.

Lemma none_params_dropped_witness :
  upper "get" = "GET" /\
  exists req,
    fst (_send_request sample_client "get" "get_runs/2" None
           (Some [("a", VNone); ("b c", VStr "d&e")]) server_ok) = [req] /\
    req_url req =
      "https://example.testrail.io/index.php?/api/v2/get_runs/2&b+c=d%26e".
Proof.
  split; [reflexivity|].
  destruct (proj1 none_params_dropped sample_client "get" "get_runs/2" None
              [("a", VNone); ("b c", VStr "d&e")] server_ok eq_refl)
    as (req & H1 & H2 & _).
  exists req. split; [exact H1|]. rewrite H2. reflexivity.
Defined.

(** C2 (amended): in a GET dispatch of a constructed client whose params
    keep at least one entry, the encoded block is appended with [&], whether
    or not the URI suffix has a [?]: the separator is chosen by looking for
    [?] in base plus suffix, and the base always has one. *)
Theorem query_separator_is_ampersand
    (base username key method uri : string) (data params : option dict)
    (net : transport) :
  upper method = "GET" ->
  kept (items params) <> [] ->
  exists req,
    fst (_send_request (__init__ base username key) method uri data params net) = [req] /\
    req_url req =
      base_url (__init__ base username key) ++ uri ++ "&" ++ urlencode (kept (items params)).
Proof.
  intros G K.
  rewrite (run_supported _ method uri data params net GET (verb_of_GET _ G)).
  eexists. split; [reflexivity|]. cbn [req_url].
  rewrite (request_url_GET _ _ _ _ G), constructed_url_has_question_mark.
  destruct (kept (items params)); [now elim K | reflexivity].
Qed.

Lemma query_separator_is_ampersand_witness :
  (upper "GET" = "GET" /\ kept (items (Some [("a", VInt 1)])) <> []) /\
  exists req,
    fst (_send_request sample_client "GET" "delete_section/1?soft=1" None
           (Some [("a", VInt 1)]) server_ok) = [req] /\
    req_url req =
      "https://example.testrail.io/index.php?/api/v2/delete_section/1?soft=1&a=1".
Proof.
  split; [split; [reflexivity | vm_compute; discriminate]|].
  apply (query_separator_is_ampersand "https://example.testrail.io" "alice" "k1"
           "GET" "delete_section/1?soft=1" None (Some [("a", VInt 1)]) server_ok).
  - reflexivity.
  - vm_compute. discriminate.
Defined.

(** C2, as stated, fails: a suffix without [?] still gets [&], not [?]. *)
Lemma plain_suffix_gets_ampersand :
  str_in "?" "get_cases/3" = false /\
  map req_url
    (fst (_send_request sample_client "GET" "get_cases/3" None
            (Some [("suite_id", VInt 7)]) server_ok)) =
    ["https://example.testrail.io/index.php?/api/v2/get_cases/3&suite_id=7"] /\
  "https://example.testrail.io/index.php?/api/v2/get_cases/3&suite_id=7" <>
    base_url sample_client ++ "get_cases/3" ++ "?" ++ urlencode [("suite_id", VInt 7)].
Proof.
  split; [reflexivity|]. split; [reflexivity|].
  vm_compute. discriminate.
Qed.

(* ================================================================= *)
(** ** Normalization of the base URL *)

Section Slashes.

Lemma substring_all (s : string) : substring 0 (String.length s) s = s.
Proof. induction s as [|c s IH]; cbn; [reflexivity | now rewrite IH]. Qed.

Lemma substring_skip (p q : string) :
  substring (String.length p) (String.length q) (p ++ q) = q.
Proof. induction p as [|c p IH]; cbn; [apply substring_all | exact IH]. Qed.

Lemma substring_split (n m : nat) (s : string) :
  n + m = String.length s -> s = substring 0 n s ++ substring n m s.
Proof.
  revert s. induction n as [|n IH]; intros s H.
  - cbn in H. subst m. rewrite substring_all. now destruct s.
  - destruct s as [|c s]; [discriminate H|].
    cbn in H. injection H as H. cbn. now rewrite <- (IH s H).
Qed.

Lemma endswith_spec (s suffix : string) :
  endswith s suffix = true <-> exists p, s = p ++ suffix.
Proof.
  unfold endswith. split.
  - intros H. apply andb_true_iff in H. destruct H as [L E].
    apply Nat.leb_le in L. apply String.eqb_eq in E.
    exists (substring 0 (String.length s - String.length suffix) s).
    assert (S : s = substring 0 (String.length s - String.length suffix) s ++
                    substring (String.length s - String.length suffix)
                      (String.length suffix) s)
      by (apply substring_split; lia).
    now rewrite E in S.
  - intros [p ->].
    assert (L : String.length (p ++ suffix) = String.length p + String.length suffix).
    { induction p as [|c p IH]; cbn; [reflexivity | now rewrite IH]. }
    rewrite L. apply andb_true_iff. split; [apply Nat.leb_le; lia|].
    replace (String.length p + String.length suffix - String.length suffix)
      with (String.length p) by lia.
    rewrite substring_skip. apply String.eqb_refl.
Qed.

Lemma trailing_slashes_snoc (s : string) :
  trailing_slashes (s ++ "/") = S (trailing_slashes s).
Proof.
  unfold trailing_slashes. rewrite list_of_append, rev_app_distr. reflexivity.
Qed.

Lemma trailing_slashes_endswith (s : string) :
  endswith s "/" = true <-> 1 <= trailing_slashes s.
Proof.
  rewrite endswith_spec. split.
  - intros [p ->]. rewrite trailing_slashes_snoc. lia.
  - unfold trailing_slashes. intros H.
    destruct (rev (list_ascii_of_string s)) as [|c l] eqn:E; [cbn in H; lia|].
    cbn in H. destruct (Ascii.eqb_spec c "/") as [->|_]; [|lia].
    exists (string_of_list_ascii (rev l)).
    apply list_of_string_inj.
    rewrite list_of_append, list_ascii_of_string_of_list_ascii.
    rewrite <- (rev_involutive (list_ascii_of_string s)), E. reflexivity.
Qed.

End Slashes.

(** C3 (amended): the constructor appends a [/] to a base URL that does not
    end with one and leaves any other base URL as it is; the URL of every
    request sent is that string, the fixed prefix, the suffix and the query
    block.  So a [/] is never missing before the prefix, and there is exactly
    one when the base URL passed in ends with at most one [/]. *)
Theorem one_slash_before_prefix (base username key : string) :
  exists b,
    b = (if endswith base "/" then base else base ++ "/") /\
    base_url (__init__ base username key) = b ++ API_PREFIX /\
    (forall method uri data params net,
       Forall (fun req => exists q, req_url req = b ++ API_PREFIX ++ uri ++ q)
              (fst (_send_request (__init__ base username key) method uri data params net))) /\
    trailing_slashes b = Nat.max 1 (trailing_slashes base) /\
    1 <= trailing_slashes b /\
    (trailing_slashes base <= 1 -> trailing_slashes b = 1).
Proof.
  assert (T : trailing_slashes (if endswith base "/" then base else base ++ "/")
              = Nat.max 1 (trailing_slashes base)).
  { destruct (endswith base "/") eqn:E.
    - apply trailing_slashes_endswith in E. lia.
    - rewrite trailing_slashes_snoc.
      assert (~ 1 <= trailing_slashes base).
      { intros H. apply trailing_slashes_endswith in H. congruence. }
      lia. }
  assert (B : base_url (__init__ base username key) =
              (if endswith base "/" then base else base ++ "/") ++ API_PREFIX).
  { cbn [__init__ base_url]. now destruct (endswith base "/"). }
  eexists. split; [reflexivity|]. split; [exact B|].
  split; [|split; [exact T | split; lia]].
  intros method uri data params net.
  destruct (verb_of method) as [v|] eqn:V.
  - rewrite (run_supported _ method uri data params net v V). cbn [fst].
    constructor; [|constructor]. cbn [req_url].
    unfold request_url. rewrite B.
    destruct (truthy params && (upper method =? "GET")).
    + destruct (filter _ (items params)).
      * exists "". now rewrite append_nil_r, append_assoc.
      * eexists. rewrite !append_assoc. reflexivity.
    + exists "". now rewrite append_nil_r, append_assoc.
  - rewrite (run_unsupported _ method uri data params net V). constructor.
Qed.

Lemma one_slash_before_prefix_witness :
  trailing_slashes "https://example.testrail.io" <= 1 /\
  exists b,
    base_url (__init__ "https://example.testrail.io" "alice" "k1") = b ++ API_PREFIX /\
    trailing_slashes b = 1.
Proof.
  split; [vm_compute; lia|].
  destruct (one_slash_before_prefix "https://example.testrail.io" "alice" "k1")
    as (b & _ & B & _ & _ & _ & H).
  exists b. split; [exact B|]. apply H. vm_compute. lia.
Defined.

(** C3, as stated, fails: a base URL that ends with two slashes keeps both. *)
Lemma doubled_slash_kept :
  map req_url
    (fst (get_case (__init__ "https://example.testrail.io//" "alice" "k1") 1 server_ok)) =
    ["https://example.testrail.io//index.php?/api/v2/get_case/1"] /\
  ~ (exists p,
       base_url (__init__ "https://example.testrail.io//" "alice" "k1") =
         p ++ "/" ++ API_PREFIX /\
       endswith p "/" = false).
Proof.
  split; [reflexivity|].
  intros (p & E & N).
  change (base_url (__init__ "https://example.testrail.io//" "alice" "k1"))
    with ("https://example.testrail.io/" ++ "/" ++ API_PREFIX) in E.
  apply append_inv_tail in E. subst p. vm_compute in N. discriminate N.
Qed.

(* ================================================================= *)
(** ** Section listing *)

Lemma dict_get_set_same (d : dict) (k : string) (v : value) :
  dict_get k (dict_set d k v) = Some v.
Proof.
  induction d as [|[k' v'] d IH]; cbn.
  - now rewrite String.eqb_refl.
  - destruct (k' =? k) eqn:E; cbn; now rewrite E.
Qed.

Lemma dict_get_set_other (d : dict) (k k' : string) (v : value) :
  k' <> k -> dict_get k' (dict_set d k v) = dict_get k' d.
Proof.
  intros N. induction d as [|[k0 v0] d IH]; cbn.
  - apply String.eqb_neq in N. rewrite String.eqb_sym. now rewrite N.
  - destruct (k0 =? k) eqn:E; cbn.
    + apply String.eqb_eq in E. subst k0.
      apply not_eq_sym, String.eqb_neq in N. now rewrite N.
    + now rewrite IH.
Qed.

(** The entries under other keys are untouched, in values and in order. *)
Lemma dict_set_others (d : dict) (k : string) (v : value) :
  filter (fun kv => negb (fst kv =? k)) (dict_set d k v) =
  filter (fun kv => negb (fst kv =? k)) d.
Proof.
  induction d as [|[k0 v0] d IH]; cbn.
  - now rewrite String.eqb_refl.
  - destruct (k0 =? k) eqn:E; cbn; rewrite E; cbn; [reflexivity | now rewrite IH].
Qed.

Lemma dict_set_In (d : dict) (k : string) (v : value) : In (k, v) (dict_set d k v).
Proof.
  induction d as [|[k' v'] d IH]; cbn; [now left|].
  destruct (String.eqb_spec k' k) as [->|_]; [now left | now right].
Qed.

(** C7 (amended): [get_sections] with a suite and a caller's mapping
    dispatches the caller's mapping with ['suite_id'] set to the suite
    argument: every entry under another key is kept as it is, and the entry
    under ['suite_id'], the caller's included, holds the suite argument,
    which is what the request URL carries. *)
Theorem get_sections_sets_suite_id
    (self : t) (project_id suite_id : Z) (p : dict) (net : transport) :
  let q := dict_set p "suite_id" (VInt suite_id) in
  get_sections self project_id (Some suite_id) (Some p) net =
    _send_request self "GET" ("get_sections/" ++ str_int project_id) None (Some q) net /\
  dict_get "suite_id" q = Some (VInt suite_id) /\
  (forall k, k <> "suite_id" -> dict_get k q = dict_get k p) /\
  filter (fun kv => negb (fst kv =? "suite_id")) q =
    filter (fun kv => negb (fst kv =? "suite_id")) p /\
  exists req sep,
    fst (get_sections self project_id (Some suite_id) (Some p) net) = [req] /\
    req_url req =
      base_url self ++ "get_sections/" ++ str_int project_id ++ query_block sep (kept q) /\
    occurs_in (urlencode_item ("suite_id", VInt suite_id)) (query_block sep (kept q)).
Proof.
  intros q. unfold q.
  assert (E : get_sections self project_id (Some suite_id) (Some p) net =
              _send_request self "GET" ("get_sections/" ++ str_int project_id) None
                (Some (dict_set p "suite_id" (VInt suite_id))) net).
  { unfold get_sections. now destruct p. }
  split; [exact E|]. split; [apply dict_get_set_same|].
  split; [intros k N; now apply dict_get_set_other|].
  split; [apply dict_set_others|].
  rewrite E, (run_supported self "GET" _ None _ net GET eq_refl).
  eexists. eexists. split; [reflexivity|]. cbn [req_url].
  split; [exact (request_url_GET self "GET" _ _ eq_refl)|].
  apply occurs_in_query_block, kept_spec.
  split; [apply dict_set_In | discriminate].
Qed.

Lemma get_sections_sets_suite_id_witness :
  "x" <> "suite_id" /\
  dict_get "x" (dict_set [("x", VInt 5); ("suite_id", VInt 9)] "suite_id" (VInt 7)) =
    dict_get "x" [("x", VInt 5); ("suite_id", VInt 9)].
Proof.
  split; [discriminate|].
  destruct (get_sections_sets_suite_id sample_client 1 7
              [("x", VInt 5); ("suite_id", VInt 9)] server_ok)
    as (_ & _ & H & _).
  apply H. discriminate.
Defined.

(** C7, as stated, fails: the caller's ['suite_id'] entry is overwritten. *)
Lemma caller_suite_id_overwritten :
  map req_url
    (fst (get_sections sample_client 1 (Some 7%Z)
            (Some [("suite_id", VInt 9)]) server_ok)) =
    ["https://example.testrail.io/index.php?/api/v2/get_sections/1&suite_id=7"] /\
  str_in "suite_id=9"
    "https://example.testrail.io/index.php?/api/v2/get_sections/1&suite_id=7" = false.
Proof. split; reflexivity. Qed.

(* ================================================================= *)
(** ** Error surfacing *)

Lemma error_message_parts (response : Response) (url : string) (params : option dict) :
  let msg := error_message response url params in
  occurs_in (str_int (status_code response)) msg /\
  occurs_in (str (error_payload response)) msg /\
  occurs_in url msg /\
  (forall e p, params = Some (e :: p) -> occurs_in (str (VDict (e :: p))) msg).
Proof.
  unfold error_message. fold (error_payload response). cbv zeta.
  repeat split.
  - auto with occurs.
  - auto 6 with occurs.
  - destruct (truthy params); auto 8 with occurs.
  - intros e p ->. cbn [truthy items]. auto 8 with occurs.
Qed.

(** C1 (amended): the request-failure [Exception] is raised exactly when a
    response was received and its status code is at least 300; its message
    has the status code, the decoded body (the raw text when decoding fails),
    the URL of the request and, when a non-empty params mapping was given,
    that mapping as given.  The other two errors: an unsupported method
    raises the invalid-argument error before any request, and a response
    below 300 whose non-empty body is not JSON raises the decoder's error. *)
Theorem http_failure_surfaced
    (self : t) (method uri : string) (data params : option dict) (net : transport) :
  let run := _send_request self method uri data params net in
  ((exists msg, snd run = Raised (Exception msg)) <->
   (exists req, fst run = [req] /\ (300 <= status_code (net req))%Z)) /\
  (forall msg,
     snd run = Raised (Exception msg) ->
     exists req,
       fst run = [req] /\
       occurs_in (str_int (status_code (net req))) msg /\
       occurs_in (str (error_payload (net req))) msg /\
       occurs_in (req_url req) msg /\
       (forall e p, params = Some (e :: p) -> occurs_in (str (VDict (e :: p))) msg)) /\
  (upper method <> "GET" -> upper method <> "POST" ->
   upper method <> "PUT" -> upper method <> "DELETE" ->
   run = ([], Raised (ValueError ("Unsupported HTTP method: " ++ method)))) /\
  (forall req,
     fst run = [req] ->
     (status_code (net req) < 300)%Z ->
     String.length (content (net req)) <> 0 ->
     json (net req) = None ->
     snd run = Raised JSONDecodeError).
Proof.
  intros run. subst run.
  destruct (verb_of method) as [v|] eqn:V.
  - rewrite (run_supported self method uri data params net v V). cbn [fst snd].
    set (req := mkRequest _ _ _ _). set (r := net req).
    assert (U : upper method <> "GET" -> upper method <> "POST" ->
                upper method <> "PUT" -> upper method <> "DELETE" -> False).
    { intros G P T D. rewrite (verb_of_None _ G P T D) in V. discriminate V. }
    assert (J : forall req',
               [req] = [req'] -> (status_code (net req') < 300)%Z ->
               String.length (content (net req')) <> 0 -> json (net req') = None ->
               (if (status_code r >=? 300)%Z
                then Raised (Exception (error_message r (req_url req) params))
                else if is_empty (content r) then Returned (VDict [])
                     else match json r with
                          | Some x => Returned x
                          | None => Raised JSONDecodeError
                          end) = Raised JSONDecodeError).
    { intros req' E Hs L Hj. injection E as <-. fold r in Hs, L, Hj.
      assert (E : (status_code r >=? 300)%Z = false) by lia. rewrite E.
      destruct (content r); [now elim L|]. cbn. now rewrite Hj. }
    destruct (status_code r >=? 300)%Z eqn:S.
    + split; [|split; [|split]].
      * split; [intros _; exists req; split; [reflexivity | fold r; lia]
               | intros _; eexists; reflexivity].
      * intros msg E. injection E as <-. exists req. split; [reflexivity|].
        exact (error_message_parts r (req_url req) params).
      * intros G P T D. now elim (U G P T D).
      * exact J.
    + assert (N : forall msg : string,
                 (if is_empty (content r) then Returned (VDict [])
                  else match json r with
                       | Some x => Returned x
                       | None => Raised JSONDecodeError
                       end) <> Raised (Exception msg)).
      { intros msg. destruct (is_empty (content r)); [discriminate|].
        destruct (json r); discriminate. }
      split; [|split; [|split]].
      * split; [intros [msg E]; now elim (N msg)|].
        intros (req' & E & H). injection E as <-. fold r in H. lia.
      * intros msg E. now elim (N msg).
      * intros G P T D. now elim (U G P T D).
      * exact J.
  - rewrite (run_unsupported self method uri data params net V). cbn [fst snd].
    split; [|split; [|split]].
    + split; [intros [msg E]; discriminate E | intros (req & E & _); discriminate E].
    + intros msg E. discriminate E.
    + reflexivity.
    + intros req E. discriminate E.
Qed.

Lemma http_failure_surfaced_witness :
  snd (_send_request sample_client "GET" "get_case/1" None
         (Some [("a", VInt 1)]) server_not_found) =
    Raised (Exception
      "TestRail API returned HTTP 404: {'error': 'not found'} [URL: https://example.testrail.io/index.php?/api/v2/get_case/1&a=1] [Original params: {'a': 1}]") /\
  (exists req,
     fst (_send_request sample_client "GET" "get_case/1" None
            (Some [("a", VInt 1)]) server_not_found) = [req] /\
     occurs_in "404"
       "TestRail API returned HTTP 404: {'error': 'not found'} [URL: https://example.testrail.io/index.php?/api/v2/get_case/1&a=1] [Original params: {'a': 1}]") /\
  _send_request sample_client "PATCH" "get_case/1" None None server_ok =
    ([], Raised (ValueError "Unsupported HTTP method: PATCH")) /\
  snd (_send_request sample_client "GET" "get_case/1" None None server_html) =
    Raised JSONDecodeError.
Proof.
  split; [reflexivity|]. split; [|split].
  - destruct (proj1 (proj2 (http_failure_surfaced sample_client "GET" "get_case/1" None
                       (Some [("a", VInt 1)]) server_not_found)) _ eq_refl)
      as (req & E & H & _).
    exists req. split; [exact E|].
    injection E as <-. exact H.
  - apply (proj1 (proj2 (proj2 (http_failure_surfaced sample_client "PATCH" "get_case/1"
                                  None None server_ok))));
      intros H; vm_compute in H; discriminate H.
  - apply (proj2 (proj2 (proj2 (http_failure_surfaced sample_client "GET" "get_case/1"
                                  None None server_html)))
             (mkRequest GET "https://example.testrail.io/index.php?/api/v2/get_case/1"
                [("Authorization", "Basic YWxpY2U6azE=");
                 ("Content-Type", "application/json")] None));
      [reflexivity | vm_compute; reflexivity | vm_compute; discriminate | reflexivity].
Defined.

(** C1, as stated, fails in three ways: an unsupported method raises with no
    response at all; a response below 300 whose body is not JSON raises; and
    a params mapping that was given but is empty is not in the message. *)
Lemma errors_beyond_failed_status :
  _send_request sample_client "PATCH" "get_case/1" None None server_ok =
    ([], Raised (ValueError "Unsupported HTTP method: PATCH")) /\
  snd (_send_request sample_client "GET" "get_case/1" None None server_html) =
    Raised JSONDecodeError /\
  snd (_send_request sample_client "GET" "get_cases/3" None (Some []) server_not_found) =
    Raised (Exception
      "TestRail API returned HTTP 404: {'error': 'not found'} [URL: https://example.testrail.io/index.php?/api/v2/get_cases/3]") /\
  str_in (str (VDict []))
    "TestRail API returned HTTP 404: {'error': 'not found'} [URL: https://example.testrail.io/index.php?/api/v2/get_cases/3]" = false.
Proof. repeat split; reflexivity. Qed.

(* ================================================================= *)
(** ** The authorization header *)

Section Base64.

Lemma b64_val_char (k : N) : (k < 64)%N -> b64_val (b64_char k) = Some k.
Proof.
  intros H. destruct k as [|p]; [reflexivity|].
  do 6 (destruct p as [p|p|]; try reflexivity); lia.
Qed.

Lemma get_beyond (s : string) (n : nat) : String.length s <= n -> get n s = None.
Proof.
  revert n. induction s as [|c s IH]; intros n H; [reflexivity|].
  destruct n as [|n]; cbn in *; [lia | apply IH; lia].
Qed.

Lemma b64_char_not_space (k : N) : isspace (b64_char k) = false.
Proof.
  destruct (N.ltb_spec k 64) as [H|H].
  - destruct k as [|p]; [reflexivity|].
    do 6 (destruct p as [p|p|]; try reflexivity); lia.
  - unfold b64_char. rewrite get_beyond; [reflexivity|].
    change (String.length b64_alphabet) with 64. lia.
Qed.

Local Ltac div_mod_lia := zify; Z.to_euclidean_division_equations; lia.

(** The sextets of one, two and three bytes, and the bytes they give back. *)
Lemma sextets_of_one (A : N) :
  (A < 256)%N ->
  let n := (A * 65536)%N in
  (n / 262144 < 64 /\ (n / 4096) mod 64 < 64 /\
   (n / 262144 * 64 + (n / 4096) mod 64) * 4096 / 65536 = A)%N.
Proof. intros HA n. subst n. repeat split; div_mod_lia. Qed.

Lemma sextets_of_two (A B : N) :
  (A < 256)%N -> (B < 256)%N ->
  let n := (A * 65536 + B * 256)%N in
  let m := (((n / 262144 * 64 + (n / 4096) mod 64) * 64 + (n / 64) mod 64) * 64)%N in
  (n / 262144 < 64 /\ (n / 4096) mod 64 < 64 /\ (n / 64) mod 64 < 64 /\
   m / 65536 = A /\ (m / 256) mod 256 = B)%N.
Proof. intros HA HB n m. subst n m. repeat split; div_mod_lia. Qed.

Lemma sextets_of_three (A B C : N) :
  (A < 256)%N -> (B < 256)%N -> (C < 256)%N ->
  let n := (A * 65536 + B * 256 + C)%N in
  (n / 262144 < 64 /\ (n / 4096) mod 64 < 64 /\ (n / 64) mod 64 < 64 /\ n mod 64 < 64 /\
   ((n / 262144 * 64 + (n / 4096) mod 64) * 64 + (n / 64) mod 64) * 64 + n mod 64 = n /\
   n / 65536 = A /\ (n / 256) mod 256 = B /\ n mod 256 = C)%N.
Proof. intros HA HB HC n. subst n. repeat split; div_mod_lia. Qed.

(** Induction over a byte string three bytes at a time. *)
Lemma string_triples_ind (P : string -> Prop) :
  P "" ->
  (forall a, P (String a "")) ->
  (forall a b, P (String a (String b ""))) ->
  (forall a b c r, P r -> P (String a (String b (String c r)))) ->
  forall s, P s.
Proof.
  intros H0 H1 H2 H3 s.
  enough (H : P s /\ (forall a, P (String a s)) /\ (forall a b, P (String a (String b s))))
    by apply H.
  induction s as [|c s (IH0 & IH1 & IH2)].
  - repeat split; auto.
  - repeat split; auto.
Qed.

Lemma b64_roundtrip (bs : string) : b64decode (b64encode bs) = Some bs.
Proof.
  induction bs as [|a|a b|a b c rest IH] using string_triples_ind.
  - reflexivity.
  - destruct (sextets_of_one _ (N_ascii_bounded a)) as (H1 & H2 & HA).
    cbn [b64encode b64decode].
    rewrite !b64_val_char by assumption.
    change (b64_val b64_pad) with (@None N).
    cbn [Ascii.eqb is_empty andb b64_pad Bool.eqb].
    now rewrite HA, ascii_N_embedding.
  - destruct (sextets_of_two _ _ (N_ascii_bounded a) (N_ascii_bounded b))
      as (H1 & H2 & H3 & HA & HB).
    cbn [b64encode b64decode].
    rewrite !b64_val_char by assumption.
    change (b64_val b64_pad) with (@None N).
    cbn [Ascii.eqb is_empty andb b64_pad Bool.eqb].
    now rewrite HA, HB, !ascii_N_embedding.
  - destruct (sextets_of_three _ _ _ (N_ascii_bounded a) (N_ascii_bounded b)
                (N_ascii_bounded c)) as (H1 & H2 & H3 & H4 & Hn & HA & HB & HC).
    cbn [b64encode b64decode].
    rewrite !b64_val_char by assumption.
    rewrite Hn, HA, HB, HC, IH, !ascii_N_embedding. reflexivity.
Qed.

Lemma b64encode_no_space (bs : string) :
  str_forallb (fun c => negb (isspace c)) (b64encode bs) = true.
Proof.
  induction bs as [|a|a b|a b c rest IH] using string_triples_ind;
    cbn [b64encode str_forallb]; rewrite ?b64_char_not_space; cbn [negb andb];
    [reflexivity | reflexivity | reflexivity | exact IH].
Qed.

Lemma strip_no_space (s : string) :
  str_forallb (fun c => negb (isspace c)) s = true -> strip s = s.
Proof.
  intros H. unfold strip.
  assert (L : lstrip s = s).
  { destruct s as [|c s]; [reflexivity|]. cbn in H |- *.
    now destruct (isspace c). }
  rewrite L. clear L.
  induction s as [|c s IH]; [reflexivity|].
  cbn [str_forallb] in H. apply andb_true_iff in H. destruct H as [Hc Hs].
  cbn [rstrip]. rewrite (IH Hs).
  destruct s; [|reflexivity]. now destruct (isspace c).
Qed.

End Base64.

(** C8: the [Authorization] header set by the constructor is a function of
    the username and the key: ['Basic '] followed by the Base64 encoding of
    the UTF-8 bytes of [username:api_key]; decoding that part gives
    [username:api_key] back.  For [("alice", "k1")] it decodes to
    [alice:k1]. *)
Theorem basic_auth_header :
  (forall base username key : string,
     exists encoded,
       header_get "Authorization" (headers (session (__init__ base username key))) =
         Some ("Basic " ++ encoded) /\
       encoded = b64encode (bytes_utf8 (username ++ ":" ++ key)) /\
       b64decode encoded = Some (username ++ ":" ++ key)) /\
  (forall base : string,
     header_get "Authorization" (headers (session (__init__ base "alice" "k1"))) =
       Some "Basic YWxpY2U6azE=") /\
  b64decode "YWxpY2U6azE=" = Some "alice:k1".
Proof.
  split; [|split; reflexivity].
  intros base username key.
  exists (b64encode (bytes_utf8 (username ++ ":" ++ key))).
  split; [|split; [reflexivity | apply b64_roundtrip]].
  cbn [__init__ session headers header_get String.eqb Ascii.eqb Bool.eqb].
  unfold str_ascii. now rewrite strip_no_space by apply b64encode_no_space.
Qed.

(* ================================================================= *)
(** ** Further properties of the dispatcher *)

Lemma verb_of_inv (method : string) (v : verb) :
  verb_of method = Some v ->
  upper method = verb_name v /\ ((upper method =? "GET") = true <-> v = GET).
Proof.
  unfold verb_of.
  destruct (String.eqb_spec (upper method) "GET") as [G|G];
    [|destruct (String.eqb_spec (upper method) "POST") as [P|P];
      [|destruct (String.eqb_spec (upper method) "PUT") as [U|U];
        [|destruct (String.eqb_spec (upper method) "DELETE") as [D|D]]]];
    intros E; inversion E; subst v; cbn [verb_name];
    (split; [assumption | split; [discriminate || reflexivity | discriminate || reflexivity]]).
Qed.

Lemma verb_of_name (v : verb) : verb_of (verb_name v) = Some v.
Proof. now destruct v. Qed.

Lemma request_url_by_verb (self : t) (method uri : string) (params : option dict) (v : verb) :
  verb_of method = Some v ->
  request_url self method uri params = request_url self (verb_name v) uri params.
Proof.
  intros V. destruct (verb_of_inv _ _ V) as [U _].
  unfold request_url. rewrite U.
  now destruct v.
Qed.

(** X1: the method name is case-insensitive throughout: a call whose method
    upper-cases to a supported name behaves exactly as the call with that
    name, in the request sent and in the outcome. *)
Theorem method_case_insensitive
    (self : t) (method uri : string) (data params : option dict) (net : transport)
    (v : verb) :
  verb_of method = Some v ->
  _send_request self method uri data params net =
  _send_request self (verb_name v) uri data params net.
Proof.
  intros V.
  rewrite (run_supported self method uri data params net v V).
  rewrite (run_supported self (verb_name v) uri data params net v (verb_of_name v)).
  now rewrite (request_url_by_verb self method uri params v V).
Qed.

Lemma method_case_insensitive_witness :
  verb_of "gEt" = Some GET /\
  _send_request sample_client "gEt" "get_case/1" None (Some [("a", VInt 1)]) server_not_found =
  _send_request sample_client "GET" "get_case/1" None (Some [("a", VInt 1)]) server_not_found.
Proof.
  split; [reflexivity|].
  apply (method_case_insensitive sample_client "gEt" "get_case/1" None
           (Some [("a", VInt 1)]) server_not_found GET).
  reflexivity.
Defined.

(** X2: a call sends one request when the method is supported and none
    otherwise, whatever the server answers: a failed response is never
    retried, and the request sent does not depend on the response. *)
Theorem no_retry
    (self : t) (method uri : string) (data params : option dict) :
  (forall net : transport,
     List.length (fst (_send_request self method uri data params net)) =
       match verb_of method with Some _ => 1 | None => 0 end) /\
  (forall net net' : transport,
     fst (_send_request self method uri data params net) =
     fst (_send_request self method uri data params net')).
Proof.
  destruct (verb_of method) as [v|] eqn:V; split; intros.
  - now rewrite (run_supported self method uri data params net v V).
  - now rewrite !(run_supported self method uri data params _ v V).
  - now rewrite (run_unsupported self method uri data params net V).
  - now rewrite !(run_unsupported self method uri data params _ V).
Qed.

(** X3: query parameters are only ever sent with GET: for POST, PUT and
    DELETE the request goes to the bare URL, base plus suffix, and is the
    same request as without params. *)
Theorem params_only_sent_with_get
    (self : t) (method uri : string) (data params : option dict) (net : transport)
    (v : verb) :
  verb_of method = Some v ->
  v <> GET ->
  (exists req,
     fst (_send_request self method uri data params net) = [req] /\
     req_url req = base_url self ++ uri) /\
  fst (_send_request self method uri data params net) =
  fst (_send_request self method uri data None net).
Proof.
  intros V N.
  assert (U : forall ps, request_url self method uri ps = base_url self ++ uri).
  { intros ps. unfold request_url.
    destruct (upper method =? "GET") eqn:G.
    - apply (proj2 (verb_of_inv _ _ V)) in G. now elim N.
    - now rewrite andb_false_r. }
  rewrite !(run_supported self method uri data _ net v V). cbn [fst].
  rewrite !U. split; [|reflexivity].
  eexists. split; reflexivity.
Qed.

Lemma params_only_sent_with_get_witness :
  (verb_of "POST" = Some POST /\ POST <> GET) /\
  exists req,
    fst (_send_request sample_client "POST" "add_run/2" None
           (Some [("a", VInt 1)]) server_ok) = [req] /\
    req_url req = "https://example.testrail.io/index.php?/api/v2/add_run/2".
Proof.
  split; [split; [reflexivity | discriminate]|].
  apply (params_only_sent_with_get sample_client "POST" "add_run/2" None
           (Some [("a", VInt 1)]) server_ok POST); [reflexivity | discriminate].
Defined.

(** X4: [data] plays no part in a GET or a DELETE: the request and the
    outcome are those of the same call without data. *)
Theorem data_ignored_by_get_and_delete
    (self : t) (method uri : string) (data params : option dict) (net : transport)
    (v : verb) :
  verb_of method = Some v ->
  v = GET \/ v = DELETE ->
  _send_request self method uri data params net =
  _send_request self method uri None params net.
Proof.
  intros V H.
  rewrite !(run_supported self method uri _ params net v V).
  destruct H as [-> | ->]; reflexivity.
Qed.

Lemma data_ignored_by_get_and_delete_witness :
  (verb_of "delete" = Some DELETE /\ (DELETE = GET \/ DELETE = DELETE)) /\
  _send_request sample_client "delete" "x/1" (Some [("k", VStr "v")]) None server_ok =
  _send_request sample_client "delete" "x/1" None None server_ok.
Proof.
  split; [split; [reflexivity | now right]|].
  apply (data_ignored_by_get_and_delete sample_client "delete" "x/1"
           (Some [("k", VStr "v")]) None server_ok DELETE); [reflexivity | now right].
Defined.

(* ================================================================= *)
(** ** Further properties of the constructor *)

Lemma authorization_value (base username key : string) :
  authorization (__init__ base username key) =
    Some ("Basic " ++ b64encode (username ++ ":" ++ key)).
Proof.
  unfold authorization.
  cbn [__init__ session headers header_get String.eqb Ascii.eqb Bool.eqb].
  unfold str_ascii, bytes_utf8.
  now rewrite strip_no_space by apply b64encode_no_space.
Qed.

Lemma b64encode_inj (x y : string) : b64encode x = b64encode y -> x = y.
Proof.
  intros E. apply (f_equal b64decode) in E.
  rewrite !b64_roundtrip in E. now injection E.
Qed.

(** X5: every request a constructed client sends, by any method and to any
    suffix, carries the two headers set at construction: the Basic
    authorization value and the JSON content type. *)
Theorem every_request_authenticated
    (base username key method uri : string) (data params : option dict)
    (net : transport) :
  Forall
    (fun req =>
       header_get "Authorization" (req_headers req) =
         Some ("Basic " ++ b64encode (username ++ ":" ++ key)) /\
       header_get "Content-Type" (req_headers req) = Some "application/json")
    (fst (_send_request (__init__ base username key) method uri data params net)).
Proof.
  destruct (verb_of method) as [v|] eqn:V.
  - rewrite (run_supported _ method uri data params net v V). cbn [fst].
    constructor; [|constructor]. cbn [req_headers]. split.
    + exact (authorization_value base username key).
    + reflexivity.
  - rewrite (run_unsupported _ method uri data params net V). constructor.
Qed.

(** X6: a base URL given without its trailing slash builds the same client
    as the one given with it. *)
Theorem trailing_slash_optional (base username key : string) :
  endswith base "/" = false ->
  __init__ base username key = __init__ (base ++ "/") username key.
Proof.
  intros H. unfold __init__. rewrite H.
  assert (E : endswith (base ++ "/") "/" = true)
    by (apply endswith_spec; now exists base).
  now rewrite E.
Qed.

Lemma trailing_slash_optional_witness :
  endswith "https://example.testrail.io" "/" = false /\
  __init__ "https://example.testrail.io" "alice" "k1" =
  __init__ "https://example.testrail.io/" "alice" "k1".
Proof.
  split; [reflexivity|].
  apply (trailing_slash_optional "https://example.testrail.io" "alice" "k1").
  reflexivity.
Defined.

(** X7: two clients have the same authorization header exactly when their
    [username:api_key] texts are the same; so the header tells apart any two
    credentials whose joined texts differ, and it does not tell apart a colon
    in the username from the separator. *)
Theorem authorization_by_joined_credentials :
  (forall base base' username key username' key' : string,
     authorization (__init__ base username key) =
     authorization (__init__ base' username' key') <->
     username ++ ":" ++ key = username' ++ ":" ++ key') /\
  (forall base username part key : string,
     authorization (__init__ base (username ++ ":" ++ part) key) =
     authorization (__init__ base username (part ++ ":" ++ key))).
Proof.
  assert (H : forall base base' username key username' key',
             authorization (__init__ base username key) =
             authorization (__init__ base' username' key') <->
             username ++ ":" ++ key = username' ++ ":" ++ key').
  { intros. rewrite !authorization_value. split.
    - intros E. injection E as E. now apply b64encode_inj.
    - now intros ->. }
  split; [exact H|].
  intros base username part key. apply H. now rewrite !append_assoc.
Qed.

(* ================================================================= *)
(** ** Further properties of the wrappers *)

Lemma quote_plus_safe (s : string) :
  str_forallb always_safe s = true -> quote_plus s = s.
Proof.
  unfold quote_plus. induction s as [|c s IH]; [reflexivity|].
  cbn [str_forallb str_flat_map]. intros H.
  apply andb_true_iff in H. destruct H as [Hc Hs].
  rewrite (IH Hs). unfold quote_plus_char. now rewrite Hc.
Qed.

Lemma uint_safe (d : Decimal.uint) :
  str_forallb always_safe (NilEmpty.string_of_uint d) = true.
Proof. induction d; cbn [NilEmpty.string_of_uint str_forallb]; auto. Qed.

(** The decimal text of an integer needs no escaping. *)
Lemma str_int_safe (n : Z) : str_forallb always_safe (str_int n) = true.
Proof.
  assert (U : forall d, str_forallb always_safe (NilZero.string_of_uint d) = true).
  { intros d. unfold NilZero.string_of_uint.
    destruct d; [reflexivity | apply uint_safe ..]. }
  unfold str_int, NilZero.string_of_int.
  destruct (Z.to_int n) as [d|d]; [apply U|].
  cbn [str_forallb]. now rewrite U.
Qed.

Lemma urlencode_suite_id (s : Z) :
  urlencode [("suite_id", VInt s)] = "suite_id=" ++ str_int s.
Proof.
  unfold urlencode, urlencode_item. cbn [map join fst snd str repr].
  rewrite (quote_plus_safe (str_int s) (str_int_safe s)). reflexivity.
Qed.

(** X8: [get_cases] with a suite sends one GET, without a body, to
    base + [get_cases/{project_id}&suite_id={suite_id}]. *)
Theorem get_cases_with_suite
    (base username key : string) (project_id suite_id : Z) (net : transport) :
  exists req,
    fst (get_cases (__init__ base username key) project_id (Some suite_id) net) = [req] /\
    req_verb req = GET /\
    req_body req = None /\
    req_url req =
      base_url (__init__ base username key) ++ "get_cases/" ++ str_int project_id
        ++ "&suite_id=" ++ str_int suite_id.
Proof.
  unfold get_cases. cbn [dict_set].
  rewrite (run_supported _ "GET" _ None _ net GET eq_refl).
  eexists. split; [reflexivity|]. split; [reflexivity|]. split; [reflexivity|].
  cbn [req_url].
  rewrite (request_url_GET _ "GET" _ _ eq_refl), constructed_url_has_question_mark.
  cbn [items kept filter snd is_None negb query_block].
  rewrite urlencode_suite_id. now rewrite !append_assoc.
Qed.

(** X9: [get_sections] with a suite and no caller entries ([None] or an
    empty mapping) sends its GET to
    base + [get_sections/{project_id}&suite_id={suite_id}]; without a suite
    and without entries it sends it to base + [get_sections/{project_id}]. *)
Theorem get_sections_without_caller_params
    (base username key : string) (project_id : Z) (params : option dict)
    (net : transport) :
  truthy params = false ->
  (forall suite_id : Z,
     exists req,
       fst (get_sections (__init__ base username key) project_id (Some suite_id) params net)
         = [req] /\
       req_verb req = GET /\
       req_url req =
         base_url (__init__ base username key) ++ "get_sections/" ++ str_int project_id
           ++ "&suite_id=" ++ str_int suite_id) /\
  (exists req,
     fst (get_sections (__init__ base username key) project_id None params net) = [req] /\
     req_verb req = GET /\
     req_url req =
       base_url (__init__ base username key) ++ "get_sections/" ++ str_int project_id).
Proof.
  intros F. unfold get_sections. rewrite F. cbn [dict_set]. split.
  - intros suite_id.
    rewrite (run_supported _ "GET" _ None _ net GET eq_refl).
    eexists. split; [reflexivity|]. split; [reflexivity|]. cbn [req_url].
    rewrite (request_url_GET _ "GET" _ _ eq_refl), constructed_url_has_question_mark.
    cbn [items kept filter snd is_None negb query_block].
    rewrite urlencode_suite_id. now rewrite !append_assoc.
  - rewrite (run_supported _ "GET" _ None _ net GET eq_refl).
    eexists. split; [reflexivity|]. split; [reflexivity|]. cbn [req_url].
    rewrite (request_url_GET _ "GET" _ _ eq_refl).
    cbn [items kept filter query_block]. now rewrite append_nil_r.
Qed.

Lemma get_sections_without_caller_params_witness :
  truthy (Some []) = false /\
  exists req,
    fst (get_sections sample_client 1 (Some 7%Z) (Some []) server_ok) = [req] /\
    req_verb req = GET /\
    req_url req =
      "https://example.testrail.io/index.php?/api/v2/get_sections/1&suite_id=7".
Proof.
  split; [reflexivity|].
  exact (proj1 (get_sections_without_caller_params "https://example.testrail.io"
                  "alice" "k1" 1 (Some []) server_ok eq_refl) 7%Z).
Defined.

(** X10: [delete_section] sends one POST without a body; the URL is
    base + [delete_section/{section_id}], followed by [?soft=1] exactly when
    the soft flag is set. *)
Theorem delete_section_soft_flag
    (self : t) (section_id : Z) (soft : bool) (net : transport) :
  exists req,
    fst (delete_section self section_id soft net) = [req] /\
    req_verb req = POST /\
    req_body req = None /\
    req_url req =
      base_url self ++ "delete_section/" ++ str_int section_id
        ++ (if soft then "?soft=1" else "").
Proof.
  unfold delete_section.
  rewrite (run_supported self "POST" _ None None net POST eq_refl).
  eexists. split; [reflexivity|]. split; [reflexivity|]. split; [reflexivity|].
  cbn [req_url]. unfold request_url. cbn [truthy andb].
  destruct soft; [reflexivity | now rewrite append_nil_r].
Qed.

Lemma request_url_extends_base (self : t) (method uri : string) (params : option dict) :
  exists rest, request_url self method uri params = base_url self ++ uri ++ rest.
Proof.
  unfold request_url.
  destruct (truthy params && (upper method =? "GET")).
  - destruct (filter _ (items params)).
    + exists "". now rewrite append_nil_r.
    + eexists. rewrite append_assoc. reflexivity.
  - exists "". now rewrite append_nil_r.
Qed.

Lemma sent_by_verb (self : t) (method uri : string) (data params : option dict)
    (net : transport) (v : verb) :
  verb_of method = Some v ->
  exists req,
    fst (_send_request self method uri data params net) = [req] /\
    req_verb req = v /\
    (v = GET -> req_body req = None) /\
    exists rest, req_url req = base_url self ++ rest.
Proof.
  intros V. rewrite (run_supported self method uri data params net v V).
  eexists. split; [reflexivity|]. split; [reflexivity|]. split.
  - now intros ->.
  - cbn [req_url]. destruct (request_url_extends_base self method uri params) as [rest ->].
    now exists (uri ++ rest).
Qed.

(** X11: every public method of the client sends exactly one request; it
    is a GET without a body or a POST, never a PUT or a DELETE, and its URL
    starts with the client's base URL. *)
Theorem public_methods_use_get_or_post (self : t) (c : call) (net : transport) :
  exists req,
    fst (invoke self c net) = [req] /\
    (req_verb req = GET /\ req_body req = None \/ req_verb req = POST) /\
    exists rest, req_url req = base_url self ++ rest.
Proof.
  assert (G : forall uri data params,
             exists req,
               fst (_send_request self "GET" uri data params net) = [req] /\
               (req_verb req = GET /\ req_body req = None \/ req_verb req = POST) /\
               exists rest, req_url req = base_url self ++ rest).
  { intros uri data params.
    destruct (sent_by_verb self "GET" uri data params net GET eq_refl)
      as (req & E & Hv & Hb & Hu).
    exists req. split; [exact E|]. split; [left; auto | exact Hu]. }
  assert (P : forall uri data params,
             exists req,
               fst (_send_request self "POST" uri data params net) = [req] /\
               (req_verb req = GET /\ req_body req = None \/ req_verb req = POST) /\
               exists rest, req_url req = base_url self ++ rest).
  { intros uri data params.
    destruct (sent_by_verb self "POST" uri data params net POST eq_refl)
      as (req & E & Hv & _ & Hu).
    exists req. split; [exact E|]. split; [now right | exact Hu]. }
  destruct c; cbn [invoke]; first [apply G | apply P].
Qed.

(* ================================================================= *)
(** ** Shape of the query block *)

Lemma count_char_app (c : ascii) (a b : string) :
  count_char c (a ++ b) = count_char c a + count_char c b.
Proof.
  induction a as [|x a IH]; [reflexivity|].
  cbn [append count_char]. rewrite IH. lia.
Qed.

(** Escaping leaves no [&] and no [=] in a key or a value. *)
Lemma quote_plus_no_separator (c : ascii) (s : string) :
  c = "&"%char \/ c = "="%char -> count_char c (quote_plus s) = 0.
Proof.
  intros H. unfold quote_plus. induction s as [|x s IH]; [reflexivity|].
  cbn [str_flat_map]. rewrite count_char_app, IH, Nat.add_0_r.
  destruct H as [-> | ->];
    destruct x as [[|] [|] [|] [|] [|] [|] [|] [|]]; reflexivity.
Qed.

Lemma urlencode_item_counts (kv : string * value) :
  count_char "=" (urlencode_item kv) = 1 /\ count_char "&" (urlencode_item kv) = 0.
Proof.
  unfold urlencode_item. rewrite !count_char_app.
  rewrite !quote_plus_no_separator by auto. split; reflexivity.
Qed.

Lemma urlencode_counts (d : dict) :
  count_char "=" (urlencode d) = List.length d /\
  count_char "&" (urlencode d) = List.length d - 1.
Proof.
  unfold urlencode. induction d as [|kv d [IHe IHa]]; [split; reflexivity|].
  destruct (urlencode_item_counts kv) as [He Ha].
  destruct d as [|kv' d]; cbn [map join List.length] in *.
  - rewrite He, Ha. split; reflexivity.
  - rewrite !count_char_app, He, Ha, IHe, IHa. cbn [count_char]. split; cbn; lia.
Qed.

(** X12: the query block a GET appends has exactly one [=] and one [&] for
    each entry kept, whatever characters the keys and values hold: an entry
    cannot add a parameter of its own. *)
Theorem query_block_one_pair_per_entry
    (base username key method uri : string) (data : option dict) (p : dict)
    (net : transport) :
  upper method = "GET" ->
  exists req block,
    fst (_send_request (__init__ base username key) method uri data (Some p) net) = [req] /\
    req_url req = base_url (__init__ base username key) ++ uri ++ block /\
    count_char "=" block = List.length (kept p) /\
    count_char "&" block = List.length (kept p).
Proof.
  intros G.
  rewrite (run_supported _ method uri data (Some p) net GET (verb_of_GET _ G)).
  eexists. eexists. split; [reflexivity|]. cbn [req_url].
  split; [rewrite (request_url_GET _ _ _ _ G), constructed_url_has_question_mark;
          reflexivity|].
  cbn [items]. destruct (kept p) as [|kv d] eqn:K; [split; reflexivity|].
  cbn [query_block]. rewrite !count_char_app.
  destruct (urlencode_counts (kv :: d)) as [-> ->].
  cbn [List.length count_char]. split; cbn; lia.
Qed.

Lemma query_block_one_pair_per_entry_witness :
  upper "GET" = "GET" /\
  exists req block,
    fst (_send_request sample_client "GET" "get_runs/2" None
           (Some [("a&b", VStr "c=d&e"); ("f", VNone)]) server_ok) = [req] /\
    req_url req = base_url sample_client ++ "get_runs/2" ++ block /\
    count_char "=" block = 1 /\
    count_char "&" block = 1.
Proof.
  split; [reflexivity|].
  exact (query_block_one_pair_per_entry "https://example.testrail.io" "alice" "k1"
           "GET" "get_runs/2" None [("a&b", VStr "c=d&e"); ("f", VNone)] server_ok
           eq_refl).
Defined.

(* ================================================================= *)
(** ** The public methods as dispatches *)

(** Each public method is one dispatch with a fixed verb. *)
Lemma invoke_dispatch (self : t) (c : call) :
  exists method uri params v,
    verb_of method = Some v /\
    (v = GET /\ call_data c = None \/ v = POST) /\
    invoke self c = _send_request self method uri (call_data c) params.
Proof.
  destruct c; cbn [invoke call_data];
    first [ do 3 eexists; exists GET;
            split; [|split; [left; split; reflexivity | reflexivity]]; reflexivity
          | do 3 eexists; exists POST;
            split; [|split; [now right | reflexivity]]; reflexivity ].
Qed.

(** X13: what a public method does with the response: a status code of 300
    or more raises the request-failure exception, whose message has the
    status code; below 300, an empty body returns the empty mapping and a
    body that decodes returns the decoded value. *)
Theorem public_methods_outcome (self : t) (c : call) (net : transport) :
  exists req,
    fst (invoke self c net) = [req] /\
    ((300 <= status_code (net req))%Z ->
     exists msg,
       snd (invoke self c net) = Raised (Exception msg) /\
       occurs_in (str_int (status_code (net req))) msg) /\
    ((status_code (net req) < 300)%Z ->
     (String.length (content (net req)) = 0 ->
      snd (invoke self c net) = Returned (VDict [])) /\
     (forall body,
        String.length (content (net req)) <> 0 ->
        json (net req) = Some body ->
        snd (invoke self c net) = Returned body)).
Proof.
  destruct (invoke_dispatch self c) as (method & uri & params & v & V & _ & ->).
  rewrite (run_supported self method uri (call_data c) params net v V).
  eexists. split; [reflexivity|]. cbn [snd]. set (r := net _). split.
  - intros H. assert (E : (status_code r >=? 300)%Z = true) by lia. rewrite E.
    eexists. split; [reflexivity|]. apply error_message_parts.
  - intros H. assert (E : (status_code r >=? 300)%Z = false) by lia. rewrite E.
    split.
    + intros L. destruct (content r); [reflexivity | discriminate L].
    + intros body L J. destruct (content r); [now elim L|]. cbn. now rewrite J.
Qed.

Lemma public_methods_outcome_witness :
  exists msg,
    snd (invoke sample_client (Call_close_run 5) server_not_found) =
      Raised (Exception msg) /\
    occurs_in "404" msg.
Proof.
  destruct (public_methods_outcome sample_client (Call_close_run 5) server_not_found)
    as (req & _ & H & _).
  apply H. vm_compute. discriminate.
Defined.

(** X14: a method with a [data] argument sends its JSON serialization as
    the body when the mapping is not empty and sends no body when it is
    empty; a method without a [data] argument never sends a body.  For the
    sample data the body is the text shown. *)
Theorem public_methods_body :
  (forall (self : t) (c : call) (net : transport),
     exists req,
       fst (invoke self c net) = [req] /\
       req_body req =
         match call_data c with
         | Some (e :: d) => Some (json_dumps (VDict (e :: d)))
         | Some [] | None => None
         end) /\
  (forall net : transport,
     map req_body (fst (invoke sample_client (Call_add_case 4 sample_data) net)) =
       [Some (json_text
          "{'title': 'Caf\u00e9 \'x\'', 'ids': [1, 2], 'ok': true, 'ref': null}")] /\
     map req_body (fst (invoke sample_client (Call_update_run 7 []) net)) = [None] /\
     map req_body (fst (invoke sample_client (Call_close_run 7) net)) = [None]).
Proof.
  split.
  - intros self c net.
    destruct (invoke_dispatch self c) as (method & uri & params & v & V & Hv & ->).
    rewrite (run_supported self method uri (call_data c) params net v V).
    eexists. split; [reflexivity|]. cbn [req_body].
    destruct Hv as [[-> ->] | ->].
    + reflexivity.
    + unfold request_data. destruct (call_data c) as [[|e d]|]; reflexivity.
  - intros net. cbn [invoke]. unfold add_case, update_run, close_run.
    rewrite !(run_supported sample_client "POST" _ _ None net POST eq_refl).
    repeat split; vm_compute; reflexivity.
Qed.

(* ================================================================= *)
(** ** Keys of the section query *)

Lemma dict_set_keys (d : dict) (k : string) (v : value) (x : string) :
  In x (map fst (dict_set d k v)) -> x = k \/ In x (map fst d).
Proof.
  induction d as [|[k0 v0] d IH]; cbn.
  - intros [E|[]]. now left.
  - destruct (k0 =? k); cbn; intros [E|H]; auto.
    destruct (IH H); auto.
Qed.

Lemma dict_set_keys_NoDup (d : dict) (k : string) (v : value) :
  NoDup (map fst d) -> NoDup (map fst (dict_set d k v)).
Proof.
  induction d as [|[k0 v0] d IH]; cbn; intros D.
  - constructor; [intros [] | constructor].
  - inversion D as [|? ? N D']; subst.
    destruct (String.eqb_spec k0 k) as [E|E]; cbn; constructor; auto.
    intros H. apply dict_set_keys in H. destruct H as [H|H]; [now elim E | now elim N].
Qed.

Lemma kept_keys_NoDup (d : dict) : NoDup (map fst d) -> NoDup (map fst (kept d)).
Proof.
  induction d as [|[k0 v0] d IH]; cbn; intros D; [constructor|].
  inversion D as [|? ? N D']; subst.
  fold (kept d). destruct (negb (is_None v0)); cbn; auto.
  constructor; auto. intros H. apply N.
  apply in_map_iff in H. destruct H as ([k1 v1] & <- & Hk).
  apply kept_spec in Hk. apply in_map_iff. exists (k1, v1). tauto.
Qed.

(** X15: when the caller's mapping has one entry per key, the query of
    [get_sections] with a suite has one entry per key too, and ['suite_id']
    is one of its keys: the suite filter is never sent twice. *)
Theorem get_sections_suite_id_once
    (self : t) (project_id suite_id : Z) (p : dict) (net : transport) :
  NoDup (map fst p) ->
  exists q,
    get_sections self project_id (Some suite_id) (Some p) net =
      _send_request self "GET" ("get_sections/" ++ str_int project_id) None (Some q) net /\
    NoDup (map fst (kept q)) /\
    In "suite_id" (map fst (kept q)) /\
    dict_get "suite_id" q = Some (VInt suite_id).
Proof.
  intros D. exists (dict_set p "suite_id" (VInt suite_id)).
  split; [unfold get_sections; now destruct p|].
  split; [now apply kept_keys_NoDup, dict_set_keys_NoDup|].
  split; [|apply dict_get_set_same].
  apply in_map_iff. exists ("suite_id", VInt suite_id). split; [reflexivity|].
  apply kept_spec. split; [apply dict_set_In | discriminate].
Qed.

Lemma get_sections_suite_id_once_witness :
  NoDup (map fst [("suite_id", VInt 9); ("x", VNone)]) /\
  exists q,
    get_sections sample_client 1 (Some 7%Z) (Some [("suite_id", VInt 9); ("x", VNone)])
      server_ok =
      _send_request sample_client "GET" ("get_sections/" ++ str_int 1) None (Some q)
        server_ok /\
    NoDup (map fst (kept q)).
Proof.
  assert (D : NoDup (map fst [("suite_id", VInt 9); ("x", VNone)])).
  { cbn. constructor; [intros [H|[]]; discriminate H|].
    constructor; [intros []|constructor]. }
  split; [exact D|].
  destruct (get_sections_suite_id_once sample_client 1 7
              [("suite_id", VInt 9); ("x", VNone)] server_ok D) as (q & E & N & _).
  exists q. split; assumption.
Defined.
